(** * Task-management backend: authorization and relationship model

    A shallow embedding of the Express controllers
    [controllers/projectController.js], [controllers/taskController.js]
    and the authentication controller ([register]), with the document
    store passed explicitly.  Each handler [async (req, res) => ...] becomes
    a function from the request inputs and the store to the response sent
    and the store afterwards.

    The Mongoose models ([models/User.js], [models/Project.js],
    [models/Task.js]) and the [protect] middleware are outside these
    sources: the requester is the id that [protect] put in [req.user._id],
    and what the models contribute (the ObjectId test, the schema
    validation run by [save()], id generation, password hashing, token
    signing) is taken as a parameter.  The [populate] calls only replace
    references by the referenced documents in the JSON that is sent; the
    data of a response is the document as it is stored. *)

From Stdlib Require Import Ascii String.
From stdpp Require Import base strings list gmap sorting.

Open Scope string_scope.

(** ** Documents

    An ObjectId is represented by the hexadecimal string that [toString()]
    yields; [a.toString() === b.toString()] and Mongoose's array
    [includes] (which compares by that string) are equality of strings.
    The ids held by stored documents and the requester's id
    ([req.user._id]) are ObjectIds; an id that arrives in a request
    ([req.params], [req.body]) is any string, and is cast where the code
    has Mongoose cast it and compared as it was sent where the code
    compares it as a string.  Fields a document may lack ([undefined])
    are options. *)

Record User := mkUser {
  user_id : string;
  username : string;
  email : string;
  password : string;
  firstName : string;
  lastName : string;
  role : string
}.

Record Project := mkProject {
  name : string;
  description : option string;
  owner : string;
  members : list string;
  status : string;
  startDate : option string;
  endDate : option string
}.

Record Comment := mkComment {
  text : string;
  author : string
}.

Record Task := mkTask {
  title : string;
  task_description : option string;
  project : string;
  task_status : string;
  priority : string;
  dueDate : option string;
  assignedTo : option string;
  createdBy : string;
  comments : list Comment
}.

(** The three collections.  Projects and tasks are reached by id only;
    users are also searched by email and username, so they are kept in
    insertion order. *)
Record Store := mkStore {
  users : list User;
  projects : gmap string Project;
  tasks : gmap string Task
}.

Definition set_projects (ps : gmap string Project) (s : Store) : Store :=
  mkStore (users s) ps (tasks s).

Definition set_tasks (ts : gmap string Task) (s : Store) : Store :=
  mkStore (users s) (projects s) ts.

Definition set_users (us : list User) (s : Store) : Store :=
  mkStore us (projects s) (tasks s).

(** ** Responses *)

Record AuthData := mkAuthData {
  auth_id : string;
  auth_username : string;
  auth_email : string;
  auth_firstName : string;
  auth_lastName : string;
  auth_role : string;
  token : string
}.

Inductive Payload :=
| ProjectData (p : Project)
| TaskData (t : Task)
| UserData (a : AuthData).

(** [res.status(code).json({ success, message, data, error })]. *)
Record Response := mkResponse {
  code : nat;
  success : bool;
  message : option string;
  data : option Payload;
  error : option string
}.

(** [res.status(c).json({ success: false, message: m })] *)
Definition refuse (c : nat) (m : string) : Response :=
  mkResponse c false (Some m) None None.

(** [res.json({ success: true, data: d })] (status 200 by default) *)
Definition json_data (d : Payload) : Response :=
  mkResponse 200 true None (Some d) None.

(** [res.json({ success: true, message: m })] *)
Definition json_message (m : string) : Response :=
  mkResponse 200 true (Some m) None None.

(** The error taxonomy, by response code. *)
Definition Succeeded (r : Response) : Prop := code r = 200.
Definition Created (r : Response) : Prop := code r = 201.
Definition BadRequest (r : Response) : Prop := code r = 400.
Definition Forbidden (r : Response) : Prop := code r = 403.
Definition NotFound (r : Response) : Prop := code r = 404.
Definition InfrastructureError (r : Response) : Prop := code r = 500.

Definition DuplicateMember (r : Response) : Prop :=
  code r = 400 ∧ message r = Some "User is already a member of this project".

Definition DuplicateIdentity (r : Response) : Prop :=
  code r = 400 ∧ message r = Some "User already exists".

(** ** Exceptions and the handler monad *)

Inductive Exn :=
| TypeError (msg : string)
| CastError (msg : string)
| ValidationError (msg : string).

Definition exn_message (e : Exn) : string :=
  match e with
  | TypeError m | CastError m | ValidationError m => m
  end.

(** A computation reads and writes the store and either throws or
    returns. *)
Definition M (A : Type) : Type := Store → (Exn + A) * Store.

#[global] Instance M_ret : MRet M := λ A a s, (inr a, s).

#[global] Instance M_bind : MBind M :=
  λ A B k m s, match m s with
               | (inl e, s') => (inl e, s')
               | (inr a, s') => k a s'
               end.

Definition throw {A} (e : Exn) : M A := λ s, (inl e, s).

(** Reading and replacing the store. *)
Definition gets {A} (f : Store → A) : M A := λ s, (inr (f s), s).
Definition modify (f : Store → Store) : M unit := λ s, (inr (), f s).

Definition Handler : Type := Store → Response * Store.

(** [try { body } catch (error) { res.status(500).json({ success: false,
    message: msg, error: error.message }) }] *)
Definition try_catch (msg : string) (body : M Response) : Handler :=
  λ s, match body s with
       | (inr r, s') => (r, s')
       | (inl e, s') =>
           (mkResponse 500 false (Some msg) None (Some (exn_message e)), s')
       end.

(** Reading a property of [null]. *)
Definition deref {A} (prop : string) (o : option A) : M A :=
  match o with
  | Some a => mret a
  | None =>
      throw (TypeError ("Cannot read properties of null (reading '"
                          ++ prop ++ "')"))
  end.

(** ** JavaScript's [||] on request fields

    A request field is absent ([None]) or a string; the empty string is
    falsy. *)
Definition falsy (v : option string) : bool :=
  match v with
  | None => true
  | Some s => bool_decide (s = "")
  end.

(** [v || cur] where [cur] may itself be undefined *)
Definition js_or (v cur : option string) : option string :=
  if falsy v then cur else v.

(** [v || cur] where [cur] is a string *)
Definition js_or_str (v : option string) (cur : string) : string :=
  match v with
  | None => cur
  | Some s => if bool_decide (s = "") then cur else s
  end.

(** [v || cur] for an array-valued field: every array is truthy *)
Definition js_or_list {A} (v : option (list A)) (cur : list A) : list A :=
  match v with
  | None => cur
  | Some l => l
  end.

(** ** Request bodies

    [req.body] destructured by the handlers; a field the client did not
    send is [None]. *)

Record ProjectBody := mkProjectBody {
  body_name : option string;
  body_description : option string;
  body_status : option string;
  body_startDate : option string;
  body_endDate : option string;
  body_members : option (list string)
}.

Record TaskBody := mkTaskBody {
  body_title : option string;
  body_task_description : option string;
  body_task_status : option string;
  body_priority : option string;
  body_dueDate : option string;
  body_assignedTo : option string
}.

Record RegisterBody := mkRegisterBody {
  body_username : string;
  body_email : string;
  body_password : string;
  body_firstName : string;
  body_lastName : string;
  body_role : option string
}.

Definition with_members (ms : list string) (p : Project) : Project :=
  mkProject (name p) (description p) (owner p) ms (status p)
            (startDate p) (endDate p).

Definition with_comments (cs : list Comment) (t : Task) : Task :=
  mkTask (title t) (task_description t) (project t) (task_status t)
         (priority t) (dueDate t) (assignedTo t) (createdBy t) cs.

(** ** Casting request strings to ObjectIds *)

Section Casting.

(** [mongoose.Types.ObjectId.isValid]: whether a request string denotes
    an ObjectId. *)
Variable isValid : string → bool.

(** The hexadecimal string of the ObjectId that a valid request string
    denotes: what [toString()] gives after the cast. *)
Variable canonical : string → string.

(** Assigning a request string to a path that holds an ObjectId: the
    string is cast; one that cannot be cast stays as it was sent and the
    document fails validation when it is saved. *)
Definition castRef (ref : string) : string :=
  if isValid ref then canonical ref else ref.

End Casting.

(** [v || cur] assigned to a path that holds an ObjectId *)
Definition js_or_ref (cast : string → string) (v cur : option string)
  : option string :=
  if falsy v then cur else cast <$> v.

(** The assignments [project.f = f || project.f] of [updateProject];
    [cast] is the cast of the member ids. *)
Definition patchProject (cast : string → string) (body : ProjectBody)
    (p : Project) : Project :=
  mkProject (js_or_str (body_name body) (name p))
            (js_or (body_description body) (description p))
            (owner p)
            (js_or_list (fmap (M:=list) cast <$> body_members body)
                        (members p))
            (js_or_str (body_status body) (status p))
            (js_or (body_startDate body) (startDate p))
            (js_or (body_endDate body) (endDate p)).

(** The assignments [task.f = f || task.f] of [updateTask]; [cast] is
    the cast of the assignee's id. *)
Definition patchTask (cast : string → string) (body : TaskBody)
    (t : Task) : Task :=
  mkTask (js_or_str (body_title body) (title t))
         (js_or (body_task_description body) (task_description t))
         (project t)
         (js_or_str (body_task_status body) (task_status t))
         (js_or_str (body_priority body) (priority t))
         (js_or (body_dueDate body) (dueDate t))
         (js_or_ref cast (body_assignedTo body) (assignedTo t))
         (createdBy t)
         (comments t).

Section Controllers.

(** [mongoose.Types.ObjectId.isValid], and the hexadecimal string of the
    ObjectId a valid request string is cast to. *)
Variable isValid : string → bool.
Variable canonical : string → string.

(** The id given to a newly created user document. *)
Variable newObjectId : list User → string.

(** The password hash applied when a user document is stored, and
    [jwt.sign({ id }, secret, { expiresIn: '30d' })]. *)
Variable hash : string → string.
Variable jwt_sign : string → string.

(** The schema validators of [models/User.js], [models/Project.js] and
    [models/Task.js], which [save()] and [create()] run before writing.
    A value that cannot be cast to the type its path declares makes the
    document invalid. *)
Variable validUser : User → bool.
Variable validProject : Project → bool.
Variable validTask : Task → bool.

(** *** Model operations

    [Model.findById(id)] casts [id] to an ObjectId, rejecting with a
    CastError when that fails, and resolves to the document with that
    ObjectId or to [null].  A document found for the request string [id]
    therefore has [canonical id] as its [_id], and it is under that id
    that [save()] and [deleteOne()] write. *)
Definition castObjectId (path id : string) : M string :=
  if isValid id then mret (canonical id)
  else throw (CastError ("Cast to ObjectId failed for value '"
                           ++ id ++ "' at path '" ++ path ++ "'")).

Definition Project_findById (id : string) : M (option Project) :=
  id' ← castObjectId "_id" id;
  gets (λ s, projects s !! id').

(** [Project.findById(ref)] for an ObjectId held by a document: nothing
    to cast. *)
Definition Project_findByRef (ref : string) : M (option Project) :=
  gets (λ s, projects s !! ref).

(** [doc.save()] rejects with a ValidationError, writing nothing, when
    the document does not validate. *)
Definition Project_save (id : string) (p : Project) : M unit :=
  if validProject p then
    modify (λ s, set_projects (<[id := p]> (projects s)) s)
  else throw (ValidationError "Project validation failed").

Definition Project_deleteOne (id : string) : M unit :=
  modify (λ s, set_projects (delete id (projects s)) s).

Definition Task_findById (id : string) : M (option Task) :=
  id' ← castObjectId "_id" id;
  gets (λ s, tasks s !! id').

Definition Task_save (id : string) (t : Task) : M unit :=
  if validTask t then
    modify (λ s, set_tasks (<[id := t]> (tasks s)) s)
  else throw (ValidationError "Task validation failed").

Definition Task_deleteOne (id : string) : M unit :=
  modify (λ s, set_tasks (delete id (tasks s)) s).

(** *** projectController.js

    [addProjectMember] tests [project.members.includes(userId)] on the
    string as it was sent and then pushes it, which casts it;
    [removeProjectMember] compares each member's string with the string
    as it was sent. *)

Definition getProjectById (id user : string) : Handler :=
  try_catch "Error fetching project"
    (if negb (isValid id) then
       mret (refuse 400 "Invalid project ID format")
     else
       found ← Project_findById id;
       match found with
       | None => mret (refuse 404 "Project not found")
       | Some project =>
           let isOwner := bool_decide (owner project = user) in
           let isMember := bool_decide (user ∈ members project) in
           if negb isOwner && negb isMember then
             mret (refuse 403 "Not authorized to access this project")
           else
             mret (json_data (ProjectData project))
       end).

Definition updateProject (id user : string) (body : ProjectBody)
  : Handler :=
  try_catch "Error updating project"
    (found ← Project_findById id;
     match found with
     | None => mret (refuse 404 "Project not found")
     | Some proj =>
         if bool_decide (owner proj ≠ user) then
           mret (refuse 403 "Not authorized to update this project")
         else
           let proj' := patchProject (castRef isValid canonical) body proj in
           Project_save (canonical id) proj';;
           mret (json_data (ProjectData proj'))
     end).

Definition deleteProject (id user : string) : Handler :=
  try_catch "Error deleting project"
    (found ← Project_findById id;
     match found with
     | None => mret (refuse 404 "Project not found")
     | Some proj =>
         if bool_decide (owner proj ≠ user) then
           mret (refuse 403 "Not authorized to delete this project")
         else
           Project_deleteOne (canonical id);;
           mret (json_message "Project removed")
     end).

Definition addProjectMember (id user userId : string) : Handler :=
  try_catch "Error adding member to project"
    (found ← Project_findById id;
     match found with
     | None => mret (refuse 404 "Project not found")
     | Some proj =>
         if bool_decide (owner proj ≠ user) then
           mret (refuse 403 "Not authorized to modify this project")
         else if bool_decide (userId ∈ members proj) then
           mret (refuse 400 "User is already a member of this project")
         else
           member ← castObjectId "members" userId;
           let proj' := with_members (members proj ++ [member]) proj in
           Project_save (canonical id) proj';;
           mret (json_data (ProjectData proj'))
     end).

Definition removeProjectMember (id user userId : string) : Handler :=
  try_catch "Error removing member from project"
    (found ← Project_findById id;
     match found with
     | None => mret (refuse 404 "Project not found")
     | Some proj =>
         if bool_decide (owner proj ≠ user) then
           mret (refuse 403 "Not authorized to modify this project")
         else
           let proj' :=
             with_members (filter (λ member, member ≠ userId)
                                  (members proj)) proj in
           Project_save (canonical id) proj';;
           mret (json_data (ProjectData proj'))
     end).

(** *** taskController.js

    The parent project is loaded with [Project.findById(task.project)],
    where [task.project] is the ObjectId the task holds, and its [owner]
    is read without a null check.  In [getTaskById] the task comes
    populated: [task.project] is then the project document, which
    [findById] takes by its id, or [null] when the project is gone, for
    which [findById] resolves to [null] as it does for the id of a
    missing project. *)

Definition getTaskById (id user : string) : Handler :=
  try_catch "Error fetching task"
    (found ← Task_findById id;
     match found with
     | None => mret (refuse 404 "Task not found")
     | Some task =>
         parent ← Project_findByRef (project task);
         proj ← deref "owner" parent;
         if bool_decide (owner proj ≠ user)
            && negb (bool_decide (user ∈ members proj)) then
           mret (refuse 403 "Not authorized to access this task")
         else
           mret (json_data (TaskData task))
     end).

Definition updateTask (id user : string) (body : TaskBody) : Handler :=
  try_catch "Error updating task"
    (found ← Task_findById id;
     match found with
     | None => mret (refuse 404 "Task not found")
     | Some task =>
         parent ← Project_findByRef (project task);
         proj ← deref "owner" parent;
         if bool_decide (owner proj ≠ user)
            && negb (bool_decide (user ∈ members proj)) then
           mret (refuse 403 "Not authorized to update this task")
         else
           let task' := patchTask (castRef isValid canonical) body task in
           Task_save (canonical id) task';;
           mret (json_data (TaskData task'))
     end).

Definition deleteTask (id user : string) : Handler :=
  try_catch "Error deleting task"
    (found ← Task_findById id;
     match found with
     | None => mret (refuse 404 "Task not found")
     | Some task =>
         parent ← Project_findByRef (project task);
         proj ← deref "owner" parent;
         if bool_decide (owner proj ≠ user) then
           mret (refuse 403 "Not authorized to delete this task")
         else
           Task_deleteOne (canonical id);;
           mret (json_message "Task removed")
     end).

Definition addComment (id user txt : string) : Handler :=
  try_catch "Error adding comment"
    (found ← Task_findById id;
     match found with
     | None => mret (refuse 404 "Task not found")
     | Some task =>
         parent ← Project_findByRef (project task);
         proj ← deref "owner" parent;
         if bool_decide (owner proj ≠ user)
            && negb (bool_decide (user ∈ members proj)) then
           mret (refuse 403 "Not authorized to comment on this task")
         else
           let task' :=
             with_comments (comments task ++ [mkComment txt user]) task in
           Task_save (canonical id) task';;
           mret (json_data (TaskData task'))
     end).

(** *** Authentication controller: [register] *)

(** [User.findOne({ $or: [{ email }, { username }] })] *)
Definition User_findOne_email_or_username (e n : string)
  : M (option User) :=
  gets (λ s, find (λ u, bool_decide (email u = e)
                        || bool_decide (username u = n)) (users s)).

(** [User.create(doc)]: a new document with a fresh id, validated and
    appended to the collection. *)
Definition User_create (n e pw fn ln r : string) : M User :=
  λ s, let u := mkUser (newObjectId (users s)) n e (hash pw) fn ln r in
       if validUser u then (inr u, set_users (users s ++ [u]) s)
       else (inl (ValidationError "User validation failed"), s).

Definition generateToken (id : string) : string := jwt_sign id.

(** [let userRole = 'user'; if (role === 'admin') userRole = 'admin'] *)
Definition userRole (requested : option string) : string :=
  if bool_decide (requested = Some "admin") then "admin" else "user".

Definition register (body : RegisterBody) : Handler :=
  try_catch "Error creating user"
    (userExists ← User_findOne_email_or_username (body_email body)
                                                  (body_username body);
     match userExists with
     | Some _ => mret (refuse 400 "User already exists")
     | None =>
         user ← User_create (body_username body) (body_email body)
                            (body_password body) (body_firstName body)
                            (body_lastName body)
                            (userRole (body_role body));
         mret (mkResponse 201 true None
                 (Some (UserData
                    (mkAuthData (user_id user) (username user)
                                (email user) (firstName user)
                                (lastName user) (role user)
                                (generateToken (user_id user)))))
                 None)
     end).

End Controllers.

(** ** A concrete identifier check and a sample store *)

(** The driver's test for a 24-digit hexadecimal string. *)
Definition is_hex_digit (c : Ascii.ascii) : bool :=
  let n := Ascii.nat_of_ascii c in
  (Nat.leb 48 n && Nat.leb n 57)
  || (Nat.leb 97 n && Nat.leb n 102)
  || (Nat.leb 65 n && Nat.leb n 70).

Fixpoint all_hex (s : string) : bool :=
  match s with
  | EmptyString => true
  | String c r => is_hex_digit c && all_hex r
  end.

Definition ObjectId_isValid (s : string) : bool :=
  Nat.eqb (String.length s) 24 && all_hex s.

(** The string of the ObjectId a valid string denotes: its digits in
    lower case. *)
Definition lower_hex_digit (c : Ascii.ascii) : Ascii.ascii :=
  let n := Ascii.nat_of_ascii c in
  if Nat.leb 65 n && Nat.leb n 70 then Ascii.ascii_of_nat (n + 32) else c.

Fixpoint lower_hex (s : string) : string :=
  match s with
  | EmptyString => EmptyString
  | String c r => String (lower_hex_digit c) (lower_hex r)
  end.

Definition ObjectId_canonical (s : string) : string := lower_hex s.

Module Sample.

Definition alice : string := "64b000000000000000000a11".
Definition bob : string := "64b000000000000000000b0b".
Definition carol : string := "64b000000000000000000ca2".
Definition projectX : string := "64c0000000000000000000f1".
Definition projectGone : string := "64c0000000000000000000f2".
Definition task1 : string := "64d000000000000000000001".
Definition task2 : string := "64d000000000000000000002".

Definition X : Project :=
  mkProject "X" (Some "demo") alice [bob] "active" None None.

Definition T1 : Task :=
  mkTask "write" None projectX "pending" "low" None None bob
         [mkComment "first" alice].

(** A task whose project has been deleted. *)
Definition T2 : Task :=
  mkTask "orphan" None projectGone "pending" "low" None None bob [].

Definition store : Store :=
  mkStore [mkUser alice "alice" "alice@example.org" "h1" "A" "L" "user"]
          {[ projectX := X ]}
          {[ task1 := T1; task2 := T2 ]}.

(** Stand-ins for the id generator, the password hash and the token
    signer. *)
Definition newObjectId (us : list User) : string :=
  match us with
  | [] => alice
  | [_] => bob
  | _ => carol
  end.

Definition hash (pw : string) : string := "$2a$10$" ++ pw.

Definition jwt_sign (id : string) : string := "jwt." ++ id.

Definition bobSignup : RegisterBody :=
  mkRegisterBody "bob" "bob@example.org" "secret" "B" "O" (Some "admin").

(** Same email as [bobSignup], another username, another spelling of
    the role. *)
Definition bobAgain : RegisterBody :=
  mkRegisterBody "robert" "bob@example.org" "hunter2" "R" "O"
                 (Some "Admin").

(** Only the status is sent. *)
Definition markCompleted : TaskBody :=
  mkTaskBody None (Some "") (Some "completed") None None None.

Definition rename : ProjectBody :=
  mkProjectBody (Some "Y") None None None None None.

End Sample.

(** Modelled from the spec: the schemas of [models/Project.js],
    [models/Task.js] and [models/User.js] are not part of the sources at
    hand; these validators follow the data model (required names and
    titles, references that are ObjectIds, the listed status, priority and
    role values). *)
Definition Project_schema (p : Project) : bool :=
  negb (bool_decide (name p = ""))
  && ObjectId_isValid (owner p)
  && forallb ObjectId_isValid (members p)
  && bool_decide (status p ∈ ["active"; "completed"; "archived"]).

Definition Task_schema (t : Task) : bool :=
  negb (bool_decide (title t = ""))
  && ObjectId_isValid (project t)
  && bool_decide (task_status t ∈ ["pending"; "in_progress"; "completed"])
  && bool_decide (priority t ∈ ["low"; "medium"; "high"])
  && from_option ObjectId_isValid true (assignedTo t)
  && ObjectId_isValid (createdBy t)
  && forallb (λ c, ObjectId_isValid (author c)) (comments t).

Definition User_schema (u : User) : bool :=
  negb (bool_decide (username u = ""))
  && negb (bool_decide (email u = ""))
  && bool_decide (role u ∈ ["user"; "admin"]).

(** ** The authorization predicates *)

Definition canAccess (p : Project) (user : string) : Prop :=
  user = owner p ∨ user ∈ members p.

Definition canManage (p : Project) (user : string) : Prop :=
  user = owner p.

(** A handler run in store [s] refuses with Forbidden and writes
    nothing. *)
Definition refused (h : Handler) (s : Store) : Prop :=
  Forbidden (h s).1 ∧ (h s).2 = s.

(** The user document a registration request gives rise to. *)
Definition registeredUser (newObjectId : list User → string)
    (hash : string → string) (body : RegisterBody) (s : Store) : User :=
  mkUser (newObjectId (users s)) (body_username body) (body_email body)
         (hash (body_password body)) (body_firstName body)
         (body_lastName body) (userRole (body_role body)).

(** ** The remaining handlers

    The handlers of the two controllers the sections above leave out, the
    [login] and [getProfile] handlers, the user controller, and the
    debugging route declared in [routes/projectRoutes.js]. *)

(** A reply whose data is not a single project, task or session. *)
Record Reply (A : Type) := mkReply {
  reply_code : nat;
  reply_success : bool;
  reply_message : option string;
  reply_data : option A;
  reply_error : option string
}.

Arguments mkReply {A} _ _ _ _ _.
Arguments reply_code {A} _.
Arguments reply_success {A} _.
Arguments reply_message {A} _.
Arguments reply_data {A} _.
Arguments reply_error {A} _.

(** [res.json({ success: true, data: d })] *)
Definition reply_with {A} (d : A) : Reply A :=
  mkReply 200 true None (Some d) None.

(** [res.status(c).json({ success: false, message: m })] *)
Definition reply_refuse {A} (c : nat) (m : string) : Reply A :=
  mkReply c false (Some m) None None.

Definition try_catch_reply {A} (msg : string) (body : M (Reply A))
  : Store → Reply A * Store :=
  λ s, match body s with
       | (inr r, s') => (r, s')
       | (inl e, s') =>
           (mkReply 500 false (Some msg) None (Some (exn_message e)), s')
       end.

(** A user document without its password: what [select('-password')]
    leaves and what [getProfile] and [updateUser] copy into the answer. *)
Record Profile := mkProfile {
  profile_id : string;
  profile_username : string;
  profile_email : string;
  profile_firstName : string;
  profile_lastName : string;
  profile_role : string
}.

Definition profile_of (u : User) : Profile :=
  mkProfile (user_id u) (username u) (email u) (firstName u) (lastName u)
            (role u).

(** The answer of the debugging route. *)
Record DebugInfo := mkDebugInfo {
  projectExists : bool;
  debug_owner : string;
  membersCount : nat;
  debug_members : list string
}.

(** [req.body] of [createProject], [createTask] and [updateUser]. *)
Record NewProjectBody := mkNewProjectBody {
  new_name : string;
  new_description : option string;
  new_startDate : option string;
  new_endDate : option string;
  new_members : option (list string)
}.

Record NewTaskBody := mkNewTaskBody {
  new_title : string;
  new_task_description : option string;
  new_project : string;
  new_priority : option string;
  new_dueDate : option string;
  new_assignedTo : option string
}.

Record UserBody := mkUserBody {
  upd_username : option string;
  upd_email : option string;
  upd_firstName : option string;
  upd_lastName : option string;
  upd_role : option string
}.

(** The assignments [user.f = req.body.f || user.f] of [updateUser]. *)
Definition patchUser (body : UserBody) (u : User) : User :=
  mkUser (user_id u)
         (js_or_str (upd_username body) (username u))
         (js_or_str (upd_email body) (email u))
         (password u)
         (js_or_str (upd_firstName body) (firstName u))
         (js_or_str (upd_lastName body) (lastName u))
         (js_or_str (upd_role body) (role u)).

(** Writing back and deleting the user document with a given id. *)
Fixpoint replace_user (u : User) (l : list User) : list User :=
  match l with
  | [] => []
  | v :: r =>
      if bool_decide (user_id v = user_id u) then u :: r
      else v :: replace_user u r
  end.

Fixpoint remove_user (id : string) (l : list User) : list User :=
  match l with
  | [] => []
  | v :: r =>
      if bool_decide (user_id v = id) then r else v :: remove_user id r
  end.

Section MoreControllers.

Variable isValid : string → bool.
Variable canonical : string → string.
Variable validUser : User → bool.
Variable validProject : Project → bool.
Variable validTask : Task → bool.

(** The ids given to newly created project and task documents. *)
Variable newProjectId : gmap string Project → string.
Variable newTaskId : gmap string Task → string.

(** What the schemas give to a status or priority that is not sent. *)
Variable defaultProjectStatus : string.
Variable defaultTaskStatus : string.
Variable defaultPriority : string.

(** The [createdAt] stamp of the task with a given id. *)
Variable createdAt : string → nat.

(** [user.comparePassword(candidate)] against the stored hash, and
    [jwt.sign]. *)
Variable comparePassword : string → string → bool.
Variable jwt_sign : string → string.

(** *** projectController.js: [getProjects], [createProject] *)

(** [Project.find({ $or: [{ owner: user }, { members: user }] })] *)
Definition matches_owner_or_member (user : string)
    (doc : string * Project) : Prop :=
  owner doc.2 = user ∨ user ∈ members doc.2.

#[global] Instance matches_owner_or_member_dec user doc :
  Decision (matches_owner_or_member user doc).
Proof. unfold matches_owner_or_member. apply _. Defined.

Definition Project_find_owner_or_member (user : string)
  : M (list (string * Project)) :=
  gets (λ s, filter (matches_owner_or_member user)
                    (map_to_list (projects s))).

Definition getProjects (user : string)
  : Store → Reply (list (string * Project)) * Store :=
  try_catch_reply "Error fetching projects"
    (found ← Project_find_owner_or_member user;
     mret (reply_with found)).

(** [Project.create(doc)]: validated and stored under a new id. *)
Definition Project_create (p : Project) : M Project :=
  λ s, if validProject p then
         (inr p, set_projects (<[newProjectId (projects s) := p]>
                                 (projects s)) s)
       else (inl (ValidationError "Project validation failed"), s).

Definition createProject (user : string) (body : NewProjectBody)
  : Handler :=
  try_catch "Error creating project"
    (proj ← Project_create
              (mkProject (new_name body) (new_description body) user
                         (castRef isValid canonical
                            <$> js_or_list (new_members body) [])
                         defaultProjectStatus
                         (new_startDate body) (new_endDate body));
     mret (mkResponse 201 true None (Some (ProjectData proj)) None)).

(** *** routes/projectRoutes.js: the [/debug/:id] route, mounted without
    the [protect] middleware *)

Definition debugProject (id : string) : Store → Reply DebugInfo * Store :=
  try_catch_reply "Error debugging project"
    (if negb (isValid id) then
       mret (reply_refuse 400 "Invalid project ID format")
     else
       found ← Project_findById isValid canonical id;
       match found with
       | None => mret (reply_refuse 404 "Project not found")
       | Some proj =>
           mret (reply_with (mkDebugInfo true (owner proj)
                               (List.length (members proj))
                               (members proj)))
       end).

(** *** taskController.js: [getProjectTasks], [getMyTasks],
    [createTask] *)

(** [.sort({ createdAt: -1 })]: most recent first. *)
Definition newest_first (a b : string * Task) : Prop :=
  (createdAt b.1 ≤ createdAt a.1)%nat.

#[global] Instance newest_first_dec a b : Decision (newest_first a b).
Proof. unfold newest_first. apply _. Defined.

(** [Task.find(query).sort({ createdAt: -1 })] *)
Definition Task_find_sorted (query : string * Task → Prop)
    `{∀ doc, Decision (query doc)} : M (list (string * Task)) :=
  gets (λ s, merge_sort newest_first
               (filter query (map_to_list (tasks s)))).

Definition in_project (id : string) (doc : string * Task) : Prop :=
  project doc.2 = id.

Definition assigned_to (user : string) (doc : string * Task) : Prop :=
  assignedTo doc.2 = Some user.

#[global] Instance in_project_dec id doc : Decision (in_project id doc).
Proof. unfold in_project. apply _. Defined.

#[global] Instance assigned_to_dec user doc :
  Decision (assigned_to user doc).
Proof. unfold assigned_to. apply _. Defined.

Definition getProjectTasks (projectId user : string)
  : Store → Reply (list (string * Task)) * Store :=
  try_catch_reply "Error fetching tasks"
    (found ← Project_findById isValid canonical projectId;
     match found with
     | None => mret (reply_refuse 404 "Project not found")
     | Some proj =>
         if bool_decide (owner proj ≠ user)
            && negb (bool_decide (user ∈ members proj)) then
           mret (reply_refuse 403 "Not authorized to access this project")
         else
           found_tasks ← Task_find_sorted
                           (in_project (canonical projectId));
           mret (reply_with found_tasks)
     end).

Definition getMyTasks (user : string)
  : Store → Reply (list (string * Task)) * Store :=
  try_catch_reply "Error fetching tasks"
    (found_tasks ← Task_find_sorted (assigned_to user);
     mret (reply_with found_tasks)).

(** [Task.create(doc)]: validated and stored under a new id. *)
Definition Task_create (t : Task) : M Task :=
  λ s, if validTask t then
         (inr t, set_tasks (<[newTaskId (tasks s) := t]> (tasks s)) s)
       else (inl (ValidationError "Task validation failed"), s).

Definition createTask (user : string) (body : NewTaskBody) : Handler :=
  try_catch "Error creating task"
    (found ← Project_findById isValid canonical (new_project body);
     match found with
     | None => mret (refuse 404 "Project not found")
     | Some projectDoc =>
         if bool_decide (owner projectDoc ≠ user)
            && negb (bool_decide (user ∈ members projectDoc)) then
           mret (refuse 403
                   "Not authorized to create tasks in this project")
         else
           task ← Task_create
                    (mkTask (new_title body) (new_task_description body)
                            (canonical (new_project body))
                            defaultTaskStatus
                            (default defaultPriority (new_priority body))
                            (new_dueDate body)
                            (castRef isValid canonical
                               <$> new_assignedTo body)
                            user []);
           mret (mkResponse 201 true None (Some (TaskData task)) None)
     end).

(** *** Authentication controller: [login], [getProfile] *)

(** [User.findOne({ email })] *)
Definition User_findOne_email (e : string) : M (option User) :=
  gets (λ s, find (λ u, bool_decide (email u = e)) (users s)).

(** [User.findById(id)] *)
Definition User_findById (id : string) : M (option User) :=
  id' ← castObjectId isValid canonical "_id" id;
  gets (λ s, find (λ u, bool_decide (user_id u = id')) (users s)).

(** [User.findById(req.user._id)]: the requester's ObjectId, nothing to
    cast. *)
Definition User_findByRef (ref : string) : M (option User) :=
  gets (λ s, find (λ u, bool_decide (user_id u = ref)) (users s)).

Definition login (e pw : string) : Handler :=
  try_catch "Error during login"
    (found ← User_findOne_email e;
     match found with
     | Some user =>
         if comparePassword pw (password user) then
           mret (json_data
                   (UserData
                      (mkAuthData (user_id user) (username user)
                                  (email user) (firstName user)
                                  (lastName user) (role user)
                                  (generateToken jwt_sign (user_id user)))))
         else mret (refuse 401 "Invalid email or password")
     | None => mret (refuse 401 "Invalid email or password")
     end).

Definition getProfile (user : string) : Store → Reply Profile * Store :=
  try_catch_reply "Error fetching profile"
    (found ← User_findByRef user;
     match found with
     | Some u => mret (reply_with (profile_of u))
     | None => mret (reply_refuse 404 "User not found")
     end).

(** *** User controller *)

Definition getUsers : Store → Reply (list Profile) * Store :=
  try_catch_reply "Error fetching users"
    (found ← gets (λ s, profile_of <$> users s);
     mret (reply_with found)).

Definition getUserById (id : string) : Store → Reply Profile * Store :=
  try_catch_reply "Error fetching user"
    (found ← User_findById id;
     match found with
     | Some u => mret (reply_with (profile_of u))
     | None => mret (reply_refuse 404 "User not found")
     end).

Definition User_save (u : User) : M User :=
  λ s, if validUser u then
         (inr u, set_users (replace_user u (users s)) s)
       else (inl (ValidationError "User validation failed"), s).

Definition User_deleteOne (id : string) : M unit :=
  modify (λ s, set_users (remove_user id (users s)) s).

Definition updateUser (id : string) (body : UserBody)
  : Store → Reply Profile * Store :=
  try_catch_reply "Error updating user"
    (found ← User_findById id;
     match found with
     | Some u =>
         updatedUser ← User_save (patchUser body u);
         mret (reply_with (profile_of updatedUser))
     | None => mret (reply_refuse 404 "User not found")
     end).

Definition deleteUser (id : string) : Handler :=
  try_catch "Error deleting user"
    (found ← User_findById id;
     match found with
     | Some u =>
         User_deleteOne (user_id u);;
         mret (json_message "User removed")
     | None => mret (refuse 404 "User not found")
     end).

End MoreControllers.

(** ** A second sample store, for the remaining handlers *)

Module Demo.

Import Sample.

Definition task3 : string := "64d000000000000000000003".
Definition task4 : string := "64d000000000000000000004".
Definition projectNew : string := "64c0000000000000000000f3".

(** The ids of project X, of Bob and of task 1 as a client may also
    send them: with the digits in upper case. *)
Definition projectX_sent : string := "64C0000000000000000000F1".
Definition bob_sent : string := "64B000000000000000000B0B".
Definition task1_sent : string := "64D000000000000000000001".

(** A task of X assigned to Carol, who is neither owner nor member. *)
Definition T3 : Task :=
  mkTask "review" None projectX "pending" "high" None (Some carol) alice [].

Definition aliceUser : User :=
  mkUser alice "alice" "alice@example.org" (hash "wonderland") "A" "L"
         "user".

Definition bobUser : User :=
  mkUser bob "bob" "bob@example.org" (hash "builder") "B" "O" "user".

Definition store : Store :=
  mkStore [aliceUser; bobUser]
          {[ projectX := X ]}
          {[ task1 := T1; task3 := T3 ]}.

Definition createdAt (id : string) : nat :=
  if bool_decide (id = task1) then 10
  else if bool_decide (id = task3) then 30
  else 0.

Definition newProjectId (ps : gmap string Project) : string := projectNew.

Definition newTaskId (ts : gmap string Task) : string := task4.

Definition comparePassword (candidate stored : string) : bool :=
  bool_decide (stored = hash candidate).

Definition carolSignup : RegisterBody :=
  mkRegisterBody "carol" "carol@example.org" "s3cret" "C" "A" None.

Definition projectY : NewProjectBody :=
  mkNewProjectBody "Y" None None None None.

Definition bobsTask : NewTaskBody :=
  mkNewTaskBody "deploy" None projectX None None (Some carol).

Definition promote : UserBody :=
  mkUserBody None (Some "") None None (Some "admin").

Definition emptyTeam : ProjectBody :=
  mkProjectBody None None None None None (Some []).

End Demo.

(** ** Vocabulary for the properties of the handlers *)

(** The answer of a [catch] clause. *)
Definition caught (msg : string) (e : Exn) : Response :=
  mkResponse 500 false (Some msg) None (Some (exn_message e)).

Definition caught_reply {A} (msg : string) (e : Exn) : Reply A :=
  mkReply 500 false (Some msg) None (Some (exn_message e)).

(** The exception of a failed cast of an [_id], and that of reading
    [owner] of [null]. *)
Definition bad_id (id : string) : Exn :=
  CastError ("Cast to ObjectId failed for value '"
               ++ id ++ "' at path '" ++ "_id" ++ "'").

(** The exception of pushing an id that cannot be cast onto
    [members]. *)
Definition bad_member (userId : string) : Exn :=
  CastError ("Cast to ObjectId failed for value '"
               ++ userId ++ "' at path '" ++ "members" ++ "'").

Definition null_owner : Exn :=
  TypeError ("Cannot read properties of null (reading '" ++ "owner" ++ "')").

(** The test the task handlers make before refusing with 403. *)
Definition denied (p : Project) (user : string) : bool :=
  bool_decide (owner p ≠ user) && negb (bool_decide (user ∈ members p)).

(** A handler run in store [s] ends in the answer of its [catch] clause
    and writes nothing. *)
Definition crashed (h : Handler) (s : Store) : Prop :=
  InfrastructureError (h s).1 ∧ (h s).2 = s.

(** A handler run in store [s] answers NotFound and writes nothing. *)
Definition missing (h : Handler) (s : Store) : Prop :=
  NotFound (h s).1 ∧ (h s).2 = s.

(** ** Properties *)

Section FindById.

Variable isValid : string → bool.
Variable canonical : string → string.

Lemma Project_findById_valid id s :
  isValid id = true →
  Project_findById isValid canonical id s
  = (inr (projects s !! canonical id), s).
Proof.
  intros Hv. unfold Project_findById, castObjectId. by rewrite Hv.
Qed.

Lemma Task_findById_valid id s :
  isValid id = true →
  Task_findById isValid canonical id s
  = (inr (tasks s !! canonical id), s).
Proof.
  intros Hv. unfold Task_findById, castObjectId. by rewrite Hv.
Qed.

End FindById.

Lemma filter_not_member (x : string) (l : list string) :
  x ∉ l → filter (λ y, y ≠ x) l = l.
Proof.
  induction l as [|y l IH]; [done|].
  intros Hnin. apply not_elem_of_cons in Hnin as [Hxy Hl].
  rewrite filter_cons_True by done. by rewrite IH.
Qed.

Lemma set_projects_id s : set_projects (projects s) s = s.
Proof. by destruct s. Qed.

Lemma with_members_id p : with_members (members p) p = p.
Proof. by destruct p. Qed.

Lemma js_or_str_falsy v cur : falsy v = true → js_or_str v cur = cur.
Proof.
  destruct v as [x|]; [|done]. simpl. by intros ->.
Qed.

Lemma js_or_falsy v cur : falsy v = true → js_or v cur = cur.
Proof. unfold js_or. by intros ->. Qed.

Lemma js_or_ref_falsy cast v cur :
  falsy v = true → js_or_ref cast v cur = cur.
Proof. unfold js_or_ref. by intros ->. Qed.

(** Steps through a handler up to the document it has found. *)
Ltac step_project Hv HP :=
  unfold try_catch, mbind, M_bind; simpl;
  rewrite (Project_findById_valid _ _ _ _ Hv), HP; simpl.

Ltac step_task Hv HT :=
  unfold try_catch, mbind, M_bind; simpl;
  rewrite (Task_findById_valid _ _ _ _ Hv), HT; simpl.

Ltac access_cases P user :=
  destruct (bool_decide_reflect (owner P ≠ user)) as [Ho|Ho];
  [|apply dec_stable in Ho];
  destruct (bool_decide_reflect (user ∈ members P)) as [Hm|Hm]; simpl.

Section ProjectRead.

Variable isValid : string → bool.
Variable canonical : string → string.

(** C1. Reading a project by a well-formed id, in whatever spelling it
    is sent: when no project has the ObjectId it denotes the answer is
    NotFound whoever asks, so existence is settled before authorization;
    when a project [P] has it, the answer is [P] exactly when the
    requester is [P]'s owner or one of its members, and Forbidden
    otherwise.  The store is not changed. *)
Theorem getProjectById_access (s : Store) (id user : string) :
  isValid id = true →
  match projects s !! canonical id with
  | None => NotFound (getProjectById isValid canonical id user s).1
  | Some P =>
      ((getProjectById isValid canonical id user s).1 = json_data (ProjectData P)
       ↔ canAccess P user)
      ∧ (Succeeded (getProjectById isValid canonical id user s).1 ↔ canAccess P user)
      ∧ (¬ canAccess P user →
         Forbidden (getProjectById isValid canonical id user s).1)
  end
  ∧ (getProjectById isValid canonical id user s).2 = s.
Proof.
  intros Hv. unfold getProjectById. rewrite Hv. simpl.
  destruct (projects s !! canonical id) as [P|] eqn:HP;
    step_project Hv HP; [|done].
  unfold canAccess, Succeeded, Forbidden.
  destruct (bool_decide_reflect (owner P = user)) as [Ho|Ho];
    destruct (bool_decide_reflect (user ∈ members P)) as [Hm|Hm];
    simpl; intuition (congruence || discriminate).
Qed.

End ProjectRead.

Section ProjectManagement.

Variable isValid : string → bool.
Variable canonical : string → string.
Variable validProject : Project → bool.

(** C2. On an existing project, updating it, deleting it, adding a
    member and removing a member succeed only for the project's owner;
    any other requester, member or not, is refused with Forbidden and
    the store, the project included, stays as it was. *)
Theorem project_management_owner_only
    (s : Store) (id user : string) (P : Project)
    (body : ProjectBody) (userId : string) :
  isValid id = true →
  projects s !! canonical id = Some P →
  let update :=
    updateProject isValid canonical validProject id user body in
  let delete := deleteProject isValid canonical id user in
  let add :=
    addProjectMember isValid canonical validProject id user userId in
  let remove :=
    removeProjectMember isValid canonical validProject id user userId in
  (user ≠ owner P →
     refused update s ∧ refused delete s ∧ refused add s
     ∧ refused remove s)
  ∧ (Succeeded (update s).1 → canManage P user)
  ∧ (Succeeded (delete s).1 → canManage P user)
  ∧ (Succeeded (add s).1 → canManage P user)
  ∧ (Succeeded (remove s).1 → canManage P user).
Proof.
  intros Hv HP. simpl.
  unfold updateProject, deleteProject, addProjectMember,
    removeProjectMember, refused, canManage, Succeeded, Forbidden.
  step_project Hv HP.
  destruct (bool_decide_reflect (owner P ≠ user)) as [Ho|Ho]; simpl.
  - repeat split; auto; discriminate.
  - apply dec_stable in Ho. repeat split; congruence.
Qed.

(** What adding and removing a member do for the owner.  The test for
    a duplicate and the removal compare member ids with the string as it
    was sent; what is appended is the ObjectId the string is cast to. *)
Lemma member_add_remove
    (s : Store) (id userId : string) (P : Project) :
  isValid id = true →
  projects s !! canonical id = Some P →
  let add :=
    addProjectMember isValid canonical validProject id (owner P) userId in
  let remove :=
    removeProjectMember isValid canonical validProject id (owner P) userId in
  let added := with_members (members P ++ [canonical userId]) P in
  let removed :=
    with_members (filter (λ member, member ≠ userId) (members P)) P in
  (userId ∈ members P → DuplicateMember (add s).1 ∧ (add s).2 = s)
  ∧ (userId ∉ members P → isValid userId = true →
     validProject added = true →
     (add s).1 = json_data (ProjectData added)
     ∧ (add s).2 = set_projects (<[canonical id := added]> (projects s)) s)
  ∧ (validProject removed = true →
     (remove s).1 = json_data (ProjectData removed)
     ∧ (remove s).2
       = set_projects (<[canonical id := removed]> (projects s)) s
     ∧ (userId ∉ members removed)
     ∧ (∀ member, member ≠ userId →
          (member ∈ members removed ↔ member ∈ members P)))
  ∧ (userId ∉ members P → validProject P = true →
     Succeeded (remove s).1 ∧ (remove s).2 = s).
Proof.
  intros Hv HP. simpl.
  unfold addProjectMember, removeProjectMember.
  step_project Hv HP.
  rewrite bool_decide_false by (intros Hne; by apply Hne).
  unfold Project_save, DuplicateMember, castObjectId.
  split; [|split; [|split]].
  - intros Hin. by rewrite bool_decide_true.
  - intros Hnin Hu Hvalid. rewrite bool_decide_false by done.
    rewrite Hu. simpl. by rewrite Hvalid.
  - intros Hvalid. rewrite Hvalid. simpl.
    split; [done|]. split; [done|]. split.
    + rewrite list_elem_of_filter. by intros [Hne _].
    + intros member Hne. rewrite list_elem_of_filter. tauto.
  - intros Hnin Hvalid.
    rewrite (filter_not_member userId (members P)) by done.
    rewrite with_members_id, Hvalid. simpl.
    split; [done|].
    by rewrite (insert_id _ _ _ HP), set_projects_id.
Qed.

End ProjectManagement.

Section TaskAccess.

Variable isValid : string → bool.
Variable canonical : string → string.
Variable validTask : Task → bool.

(** C3. For a task [T] of project [P]: reading [T], updating it and
    commenting on it are open to [P]'s owner and members and refused
    with Forbidden to everyone else; deleting [T] is open to [P]'s owner
    alone and refused with Forbidden to every other requester, a member
    who created [T] included.  (An update or comment of an authorized
    requester is written when the resulting document validates.) *)
Theorem task_access
    (s : Store) (id user : string) (T : Task) (P : Project)
    (body : TaskBody) (txt : string) :
  isValid id = true →
  tasks s !! canonical id = Some T →
  projects s !! project T = Some P →
  let get := getTaskById isValid canonical id user in
  let update := updateTask isValid canonical validTask id user body in
  let comment := addComment isValid canonical validTask id user txt in
  let delete := deleteTask isValid canonical id user in
  let commented := with_comments (comments T ++ [mkComment txt user]) T in
  (canAccess P user →
     (get s).1 = json_data (TaskData T)
     ∧ (validTask (patchTask (castRef isValid canonical) body T) = true →
        Succeeded (update s).1)
     ∧ (validTask commented = true → Succeeded (comment s).1))
  ∧ (¬ canAccess P user →
     refused get s ∧ refused update s ∧ refused comment s)
  ∧ (Succeeded (get s).1 → canAccess P user)
  ∧ (Succeeded (update s).1 → canAccess P user)
  ∧ (Succeeded (comment s).1 → canAccess P user)
  ∧ (Succeeded (delete s).1 ↔ canManage P user)
  ∧ (user ≠ owner P → refused delete s)
  ∧ (user ∈ members P → user = createdBy T → user ≠ owner P →
     refused delete s).
Proof.
  intros Hv HT HP. simpl.
  unfold getTaskById, updateTask, addComment, deleteTask, refused.
  step_task Hv HT. unfold Project_findByRef, gets. rewrite HP. simpl.
  unfold Task_save, canAccess, canManage, Succeeded, Forbidden.
  access_cases P user;
    destruct (validTask (patchTask (castRef isValid canonical) body T));
    destruct (validTask (with_comments _ T));
    simpl; intuition (congruence || discriminate).
Qed.

(** C7. A successful task update stores the task with its project
    reference, its creator and its comments as they were, and with every
    field whose value in the request is absent or empty as it was; the
    other tasks, the projects and the users are not touched. *)
Theorem updateTask_merge_patch
    (s : Store) (id user : string) (body : TaskBody) :
  let update := updateTask isValid canonical validTask id user body in
  Succeeded (update s).1 →
  ∃ T T',
    tasks s !! canonical id = Some T
    ∧ tasks (update s).2 !! canonical id = Some T'
    ∧ (update s).1 = json_data (TaskData T')
    ∧ project T' = project T
    ∧ createdBy T' = createdBy T
    ∧ comments T' = comments T
    ∧ (falsy (body_title body) = true → title T' = title T)
    ∧ (falsy (body_task_description body) = true →
       task_description T' = task_description T)
    ∧ (falsy (body_task_status body) = true →
       task_status T' = task_status T)
    ∧ (falsy (body_priority body) = true → priority T' = priority T)
    ∧ (falsy (body_dueDate body) = true → dueDate T' = dueDate T)
    ∧ (falsy (body_assignedTo body) = true →
       assignedTo T' = assignedTo T)
    ∧ (∀ other, other ≠ canonical id →
         tasks (update s).2 !! other = tasks s !! other)
    ∧ projects (update s).2 = projects s
    ∧ users (update s).2 = users s.
Proof.
  simpl. unfold updateTask, try_catch, mbind, M_bind, Task_findById,
    Project_findByRef, castObjectId, gets, Succeeded. simpl.
  destruct (isValid id) eqn:Hv; simpl; [|discriminate].
  destruct (tasks s !! canonical id) as [T|] eqn:HT; simpl;
    [|discriminate].
  destruct (projects s !! project T) as [P|]; simpl; [|discriminate].
  destruct (_ && _); simpl; [discriminate|].
  unfold Task_save.
  destruct (validTask (patchTask (castRef isValid canonical) body T));
    simpl; [|discriminate].
  intros _. exists T, (patchTask (castRef isValid canonical) body T).
  rewrite lookup_insert_eq.
  repeat split; try done; simpl;
    try (by apply js_or_str_falsy); try (by apply js_or_falsy);
    try (by apply js_or_ref_falsy).
  intros other Hne. by rewrite lookup_insert_ne.
Qed.

(** C8. A successful comment stores the task with the comment
    [{text, author: requester}] added after the comments it had: the
    earlier comments keep their positions and contents, the sequence is
    longer by one, and nothing else of the task changes. *)
Theorem addComment_appends
    (s : Store) (id user txt : string) :
  let comment := addComment isValid canonical validTask id user txt in
  Succeeded (comment s).1 →
  ∃ T T',
    tasks s !! canonical id = Some T
    ∧ tasks (comment s).2 !! canonical id = Some T'
    ∧ (comment s).1 = json_data (TaskData T')
    ∧ comments T' = (comments T ++ [mkComment txt user])%list
    ∧ T' = with_comments (comments T') T
    ∧ List.length (comments T') = S (List.length (comments T))
    ∧ (∀ i c, comments T !! i = Some c → comments T' !! i = Some c)
    ∧ comments T' !! List.length (comments T)
      = Some (mkComment txt user).
Proof.
  simpl. unfold addComment, try_catch, mbind, M_bind, Task_findById,
    Project_findByRef, castObjectId, gets, Succeeded. simpl.
  destruct (isValid id); simpl; [|discriminate].
  destruct (tasks s !! canonical id) as [T|] eqn:HT; simpl;
    [|discriminate].
  destruct (projects s !! project T) as [P|]; simpl; [|discriminate].
  destruct (_ && _); simpl; [discriminate|].
  unfold Task_save.
  destruct (validTask (with_comments _ T)); simpl; [|discriminate].
  intros _.
  exists T, (with_comments (comments T ++ [mkComment txt user]) T).
  rewrite lookup_insert_eq. simpl.
  repeat split; try done.
  - rewrite length_app. simpl. lia.
  - intros i c Hi. by apply lookup_app_l_Some.
  - by rewrite list_lookup_middle.
Qed.

(** C10. When the project a task refers to is not in the store, reading,
    updating, deleting and commenting on the task all end in the 500
    answer of the handler's catch clause, never in NotFound or
    Forbidden, and nothing is written. *)
Theorem dangling_project_reference
    (s : Store) (id user : string) (T : Task)
    (body : TaskBody) (txt : string) :
  isValid id = true →
  tasks s !! canonical id = Some T →
  projects s !! project T = None →
  let failed (h : Handler) :=
    InfrastructureError (h s).1
    ∧ ¬ NotFound (h s).1 ∧ ¬ Forbidden (h s).1
    ∧ (h s).2 = s in
  failed (getTaskById isValid canonical id user)
  ∧ failed (updateTask isValid canonical validTask id user body)
  ∧ failed (deleteTask isValid canonical id user)
  ∧ failed (addComment isValid canonical validTask id user txt).
Proof.
  intros Hv HT HP. simpl.
  unfold getTaskById, updateTask, addComment, deleteTask.
  step_task Hv HT.
  unfold Project_findByRef, gets, mbind, M_bind,
    InfrastructureError, NotFound, Forbidden.
  rewrite HP. simpl. repeat split; done.
Qed.

End TaskAccess.

Section Registration.

Variable newObjectId : list User → string.
Variable hash : string → string.
Variable jwt_sign : string → string.
Variable validUser : User → bool.

#[local] Abbreviation reg :=
  (register newObjectId hash jwt_sign validUser).

(** A request whose email or username is that of a stored user is
    refused and nothing is stored. *)
Lemma register_taken (s : Store) (body : RegisterBody) (u : User) :
  u ∈ users s →
  email u = body_email body ∨ username u = body_username body →
  DuplicateIdentity (reg body s).1 ∧ (reg body s).2 = s.
Proof.
  intros Hin Hsame.
  unfold register, try_catch, mbind, M_bind,
    User_findOne_email_or_username, gets. simpl.
  destruct (find _ (users s)) as [v|] eqn:Hfind; simpl; [done|].
  exfalso. apply list_elem_of_In in Hin.
  pose proof (find_none _ _ Hfind u Hin) as Hu. simpl in Hu.
  apply orb_false_elim in Hu as [He Hn].
  apply bool_decide_eq_false in He, Hn. tauto.
Qed.

(** A request that clashes with no stored user and validates is
    answered 201 and its user is appended to the collection. *)
Lemma register_fresh (s : Store) (body : RegisterBody) :
  (∀ u, u ∈ users s →
     email u ≠ body_email body ∧ username u ≠ body_username body) →
  validUser (registeredUser newObjectId hash body s) = true →
  Created (reg body s).1
  ∧ (reg body s).2
    = set_users (users s ++ [registeredUser newObjectId hash body s])%list
                s.
Proof.
  intros Hfresh Hvalid.
  unfold register, try_catch, mbind, M_bind,
    User_findOne_email_or_username, gets, User_create. simpl.
  destruct (find _ (users s)) as [v|] eqn:Hfind; simpl.
  - exfalso. apply find_some in Hfind as [Hin Hv].
    apply list_elem_of_In, Hfresh in Hin as [He Hn].
    apply orb_true_iff in Hv as [Hv|Hv];
      apply bool_decide_eq_true in Hv; tauto.
  - unfold registeredUser in Hvalid. by rewrite Hvalid.
Qed.

(** C5. Of two registrations with the same email or the same username,
    the first, meeting no clash in the store, succeeds, and the second
    is refused as DuplicateIdentity and stores no user. *)
Theorem register_twice (s : Store) (first second : RegisterBody) :
  (∀ u, u ∈ users s →
     email u ≠ body_email first ∧ username u ≠ body_username first) →
  validUser (registeredUser newObjectId hash first s) = true →
  body_email second = body_email first
  ∨ body_username second = body_username first →
  let s1 := (reg first s).2 in
  Created (reg first s).1
  ∧ DuplicateIdentity (reg second s1).1
  ∧ (reg second s1).2 = s1
  ∧ users s1
    = (users s ++ [registeredUser newObjectId hash first s])%list.
Proof.
  intros Hfresh Hvalid Hsame. simpl.
  destruct (register_fresh s first Hfresh Hvalid) as [Hcreated Hs1].
  split; [done|]. rewrite Hs1.
  destruct (register_taken
              (set_users
                 (users s ++ [registeredUser newObjectId hash first s]) s)
              second (registeredUser newObjectId hash first s))
    as [Hdup Hkept].
  - simpl. apply elem_of_app. right. by apply list_elem_of_singleton.
  - simpl. destruct Hsame as [->| ->]; auto.
  - by rewrite Hkept.
Qed.

(** C6. A successful registration stores one new user, whose role is
    "admin" exactly when the request's role is the string "admin" and
    "user" for every other value and when the request has no role; the
    answer reports that role. *)
Theorem register_role (s : Store) (body : RegisterBody) :
  Created (reg body s).1 →
  ∃ u a,
    users (reg body s).2 = (users s ++ [u])%list
    ∧ data (reg body s).1 = Some (UserData a)
    ∧ auth_role a = role u
    ∧ (role u = "admin" ↔ body_role body = Some "admin")
    ∧ (body_role body ≠ Some "admin" → role u = "user").
Proof.
  unfold register, try_catch, mbind, M_bind,
    User_findOne_email_or_username, gets, User_create, Created. simpl.
  destruct (find _ (users s)) as [v|]; simpl; [discriminate|].
  destruct (validUser _); simpl; [|discriminate].
  intros _. eexists _, _. repeat split; simpl.
  - unfold userRole. case_bool_decide; [done|discriminate].
  - unfold userRole. by intros ->.
  - unfold userRole. intros Hne. by rewrite bool_decide_false.
Qed.

End Registration.

Section MalformedIds.

Variable isValid : string → bool.
Variable canonical : string → string.

(** C9. Reading a project by a malformed id is refused with 400
    "Invalid project ID format" before the store is consulted; that is
    not the NotFound answer that a well-formed id gets when no project
    has the ObjectId it denotes. *)
Theorem getProjectById_malformed
    (s : Store) (id id' user : string) :
  isValid id = false →
  isValid id' = true →
  projects s !! canonical id' = None →
  BadRequest (getProjectById isValid canonical id user s).1
  ∧ message (getProjectById isValid canonical id user s).1
    = Some "Invalid project ID format"
  ∧ (getProjectById isValid canonical id user s).2 = s
  ∧ ¬ NotFound (getProjectById isValid canonical id user s).1
  ∧ NotFound (getProjectById isValid canonical id' user s).1.
Proof.
  intros Hbad Hgood Habsent. unfold getProjectById.
  rewrite Hbad, Hgood. simpl.
  unfold try_catch, mbind, M_bind, Project_findById, castObjectId, gets.
  rewrite Hgood. simpl. rewrite Habsent. simpl.
  unfold BadRequest, NotFound. simpl. repeat split; done.
Qed.

End MalformedIds.

(** ** The properties at work on the sample store *)

Section SampleRuns.

Import Sample.

Lemma store_projectX : projects store !! projectX = Some X.
Proof. vm_compute. reflexivity. Qed.

Lemma store_projectGone : projects store !! projectGone = None.
Proof. vm_compute. reflexivity. Qed.

Lemma store_task1 : tasks store !! task1 = Some T1.
Proof. vm_compute. reflexivity. Qed.

Lemma store_task2 : tasks store !! task2 = Some T2.
Proof. vm_compute. reflexivity. Qed.

Lemma bob_is_member : bob ∈ members X.
Proof. simpl. apply list_elem_of_singleton. reflexivity. Qed.

Lemma bob_is_not_owner : bob ≠ owner X.
Proof. discriminate. Qed.

Lemma carol_is_not_member : carol ∉ members X.
Proof.
  simpl. intros Hin. apply list_elem_of_singleton in Hin. discriminate.
Qed.

(** Carol, neither owner nor member, is refused X; an unknown id is not
    found; Alice deletes T1 and the task is gone. *)
Example carol_reads_X :
  (getProjectById ObjectId_isValid ObjectId_canonical projectX carol store).1
  = refuse 403 "Not authorized to access this project".
Proof. vm_compute. reflexivity. Qed.

Example carol_reads_unknown :
  (getProjectById ObjectId_isValid ObjectId_canonical projectGone carol store).1
  = refuse 404 "Project not found".
Proof. vm_compute. reflexivity. Qed.

Example alice_deletes_T1 :
  (deleteTask ObjectId_isValid ObjectId_canonical task1 alice store).1
  = json_message "Task removed"
  ∧ tasks (deleteTask ObjectId_isValid ObjectId_canonical task1 alice store).2 !! task1 = None.
Proof. split; vm_compute; reflexivity. Qed.

Example bob_marks_T1_completed :
  tasks (updateTask ObjectId_isValid ObjectId_canonical Task_schema task1 bob markCompleted
           store).2 !! task1
  = Some (mkTask "write" None projectX "completed" "low" None None bob
                 [mkComment "first" alice]).
Proof. vm_compute. reflexivity. Qed.

(** A status outside the schema is not written. *)
Example bob_sets_unknown_status :
  updateTask ObjectId_isValid ObjectId_canonical Task_schema task1 bob
    (mkTaskBody None None (Some "bogus") None None None) store
  = (mkResponse 500 false (Some "Error updating task") None
       (Some "Task validation failed"), store).
Proof. vm_compute. reflexivity. Qed.

(** Bob, a member of X, reads X, here with X's id sent in upper
    case. *)
Lemma getProjectById_access_witness :
  ObjectId_isValid Demo.projectX_sent = true
  ∧ (getProjectById ObjectId_isValid ObjectId_canonical Demo.projectX_sent
       bob store).1
    = json_data (ProjectData X).
Proof.
  split; [reflexivity|].
  pose proof (getProjectById_access ObjectId_isValid ObjectId_canonical
                store Demo.projectX_sent bob eq_refl) as [H _].
  change (ObjectId_canonical Demo.projectX_sent) with projectX in H.
  rewrite store_projectX in H. destruct H as [[_ H] _].
  apply H. right. exact bob_is_member.
Defined.

(** Bob, a member of X, can neither rename X, delete it, add Carol nor
    remove himself. *)
Lemma project_management_owner_only_witness :
  ObjectId_isValid projectX = true
  ∧ projects store !! ObjectId_canonical projectX = Some X
  ∧ refused (updateProject ObjectId_isValid ObjectId_canonical
               Project_schema projectX bob rename) store
  ∧ refused (deleteProject ObjectId_isValid ObjectId_canonical projectX
               bob) store
  ∧ refused (addProjectMember ObjectId_isValid ObjectId_canonical
               Project_schema projectX bob carol) store
  ∧ refused (removeProjectMember ObjectId_isValid ObjectId_canonical
               Project_schema projectX bob carol) store.
Proof.
  split; [reflexivity|]. split; [exact store_projectX|].
  pose proof (project_management_owner_only ObjectId_isValid
                ObjectId_canonical Project_schema store projectX bob X
                rename carol eq_refl store_projectX) as [H _].
  exact (H bob_is_not_owner).
Defined.

(** Bob, member of X and creator of T1, reads T1 and may not delete
    it. *)
Lemma task_access_witness :
  ObjectId_isValid task1 = true
  ∧ tasks store !! ObjectId_canonical task1 = Some T1
  ∧ projects store !! project T1 = Some X
  ∧ (getTaskById ObjectId_isValid ObjectId_canonical task1 bob store).1
    = json_data (TaskData T1)
  ∧ refused (deleteTask ObjectId_isValid ObjectId_canonical task1 bob)
      store.
Proof.
  split; [reflexivity|]. split; [exact store_task1|].
  split; [exact store_projectX|].
  pose proof (task_access ObjectId_isValid ObjectId_canonical Task_schema
                store task1 bob T1 X markCompleted "done" eq_refl
                store_task1 store_projectX)
    as (Hallowed & _ & _ & _ & _ & _ & Hdel & _).
  split.
  - apply Hallowed. right. exact bob_is_member.
  - exact (Hdel bob_is_not_owner).
Defined.

(** After Bob's update of T1 the task still belongs to X. *)
Lemma updateTask_merge_patch_witness :
  Succeeded (updateTask ObjectId_isValid ObjectId_canonical Task_schema
               task1 bob markCompleted store).1
  ∧ ∃ T T',
      tasks store !! task1 = Some T
      ∧ tasks (updateTask ObjectId_isValid ObjectId_canonical Task_schema
                 task1 bob markCompleted store).2 !! task1 = Some T'
      ∧ project T' = project T.
Proof.
  assert (Hok : Succeeded (updateTask ObjectId_isValid ObjectId_canonical Task_schema
                             task1 bob markCompleted store).1)
    by (vm_compute; reflexivity).
  split; [exact Hok|].
  destruct (updateTask_merge_patch ObjectId_isValid ObjectId_canonical Task_schema store
              task1 bob markCompleted Hok)
    as (T & T' & HT & HT' & _ & Hproject & _).
  exists T, T'. auto.
Defined.

(** Bob's comment comes after Alice's. *)
Lemma addComment_appends_witness :
  Succeeded (addComment ObjectId_isValid ObjectId_canonical Task_schema
               task1 bob "second" store).1
  ∧ ∃ T T',
      tasks store !! task1 = Some T
      ∧ tasks (addComment ObjectId_isValid ObjectId_canonical Task_schema
                 task1 bob "second" store).2 !! task1 = Some T'
      ∧ comments T' = (comments T ++ [mkComment "second" bob])%list.
Proof.
  assert (Hok : Succeeded (addComment ObjectId_isValid ObjectId_canonical Task_schema
                             task1 bob "second" store).1)
    by (vm_compute; reflexivity).
  split; [exact Hok|].
  destruct (addComment_appends ObjectId_isValid ObjectId_canonical Task_schema store
              task1 bob "second" Hok)
    as (T & T' & HT & HT' & _ & Hcomments & _).
  exists T, T'. auto.
Defined.

(** T2's project is gone: Bob's read of T2 ends in the 500 answer. *)
Lemma dangling_project_reference_witness :
  ObjectId_isValid task2 = true
  ∧ tasks store !! task2 = Some T2
  ∧ projects store !! project T2 = None
  ∧ InfrastructureError (getTaskById ObjectId_isValid ObjectId_canonical task2 bob store).1
  ∧ InfrastructureError (deleteTask ObjectId_isValid ObjectId_canonical task2 bob store).1.
Proof.
  split; [reflexivity|]. split; [exact store_task2|].
  split; [exact store_projectGone|].
  pose proof (dangling_project_reference ObjectId_isValid ObjectId_canonical Task_schema
                store task2 bob T2 markCompleted "hello" eq_refl
                store_task2 store_projectGone)
    as ((Hget & _) & _ & (Hdel & _) & _).
  split; [exact Hget | exact Hdel].
Defined.

Lemma nobody_is_bob (u : User) :
  u ∈ users store →
  email u ≠ body_email bobSignup ∧ username u ≠ body_username bobSignup.
Proof.
  intros Hin. apply list_elem_of_singleton in Hin. subst u.
  split; discriminate.
Qed.

(** Bob signs up; a second request with his email is refused. *)
Lemma register_twice_witness :
  User_schema (registeredUser newObjectId hash bobSignup store) = true
  ∧ (body_email bobAgain = body_email bobSignup
     ∨ body_username bobAgain = body_username bobSignup)
  ∧ Created (register newObjectId hash jwt_sign User_schema
               bobSignup store).1
  ∧ DuplicateIdentity
      (register newObjectId hash jwt_sign User_schema bobAgain
         (register newObjectId hash jwt_sign User_schema
            bobSignup store).2).1.
Proof.
  split; [reflexivity|]. split; [left; reflexivity|].
  pose proof (register_twice newObjectId hash jwt_sign User_schema
                store bobSignup bobAgain nobody_is_bob eq_refl
                (or_introl eq_refl))
    as (Hfirst & Hsecond & _).
  split; [exact Hfirst | exact Hsecond].
Defined.

(** Bob asked for "admin" and is stored as an admin. *)
Lemma register_role_witness :
  Created (register newObjectId hash jwt_sign User_schema
             bobSignup store).1
  ∧ ∃ u,
      users (register newObjectId hash jwt_sign User_schema
               bobSignup store).2 = (users store ++ [u])%list
      ∧ role u = "admin".
Proof.
  assert (Hok : Created (register newObjectId hash jwt_sign User_schema
                           bobSignup store).1)
    by (vm_compute; reflexivity).
  split; [exact Hok|].
  destruct (register_role newObjectId hash jwt_sign User_schema store
              bobSignup Hok)
    as (u & a & Husers & _ & _ & Hadmin & _).
  exists u. split; [exact Husers|]. apply Hadmin. reflexivity.
Defined.

(** "abc" is refused as malformed; the id of the deleted project is
    answered NotFound. *)
Lemma getProjectById_malformed_witness :
  ObjectId_isValid "abc" = false
  ∧ ObjectId_isValid projectGone = true
  ∧ projects store !! projectGone = None
  ∧ BadRequest (getProjectById ObjectId_isValid ObjectId_canonical "abc" carol store).1
  ∧ NotFound (getProjectById ObjectId_isValid ObjectId_canonical projectGone carol store).1.
Proof.
  split; [reflexivity|]. split; [reflexivity|].
  split; [exact store_projectGone|].
  pose proof (getProjectById_malformed ObjectId_isValid ObjectId_canonical store "abc"
                projectGone carol eq_refl eq_refl store_projectGone)
    as (Hbad & _ & _ & _ & Hmissing).
  split; [exact Hbad | exact Hmissing].
Defined.

(** Against the claim that a malformed project id is answered NotFound:
    "abc" is no ObjectId and the answer to it is not NotFound. *)
Lemma getProjectById_malformed_is_not_NotFound :
  ObjectId_isValid "abc" = false
  ∧ ¬ NotFound (getProjectById ObjectId_isValid ObjectId_canonical "abc" carol store).1.
Proof.
  split; [reflexivity|].
  unfold NotFound. vm_compute. discriminate.
Qed.

End SampleRuns.

(** ** Further properties of the handlers *)

Lemma denied_false (p : Project) (user : string) :
  denied p user = false ↔ canAccess p user.
Proof.
  unfold denied, canAccess.
  destruct (bool_decide_reflect (owner p ≠ user)) as [Ho|Ho];
    [|apply dec_stable in Ho];
    destruct (bool_decide_reflect (user ∈ members p)) as [Hm|Hm];
    simpl; split; auto; try discriminate.
  intros [He|Hin]; [by subst | done].
Qed.

Lemma denied_true (p : Project) (user : string) :
  denied p user = true ↔ ¬ canAccess p user.
Proof.
  rewrite <- denied_false. split.
  - intros H H'. congruence.
  - intros H. destruct (denied p user); [done | by destruct H].
Qed.

Lemma set_tasks_id s : set_tasks (tasks s) s = s.
Proof. by destruct s. Qed.

Lemma filter_out_appended (x : string) (l : list string) :
  x ∉ l → filter (λ y, y ≠ x) (l ++ [x])%list = l.
Proof.
  intros Hnin. rewrite filter_app, (filter_not_member x l Hnin).
  rewrite filter_cons_False by (intros Hne; by apply Hne).
  by rewrite filter_nil, app_nil_r.
Qed.

Lemma filter_out_twice (x : string) (l : list string) :
  filter (λ y, y ≠ x) (filter (λ y, y ≠ x) l) = filter (λ y, y ≠ x) l.
Proof.
  apply filter_not_member. rewrite list_elem_of_filter. by intros [Hne _].
Qed.

Lemma with_members_twice ms ms' p :
  with_members ms (with_members ms' p) = with_members ms p.
Proof. done. Qed.

Lemma set_projects_twice m m' s :
  set_projects m (set_projects m' s) = set_projects m s.
Proof. done. Qed.

Section ProjectHandlerCases.

Variable isValid : string → bool.
Variable canonical : string → string.
Variable validProject : Project → bool.

Lemma Project_findById_bad id s :
  isValid id = false →
  Project_findById isValid canonical id s = (inl (bad_id id), s).
Proof.
  intros Hv. unfold Project_findById, castObjectId. by rewrite Hv.
Qed.

Lemma getProjectById_cases id user s :
  getProjectById isValid canonical id user s =
  (if isValid id then
     match projects s !! canonical id with
     | None => refuse 404 "Project not found"
     | Some P =>
         if negb (bool_decide (owner P = user))
            && negb (bool_decide (user ∈ members P))
         then refuse 403 "Not authorized to access this project"
         else json_data (ProjectData P)
     end
   else refuse 400 "Invalid project ID format", s).
Proof.
  unfold getProjectById, try_catch, mbind, M_bind.
  destruct (isValid id) eqn:Hv; simpl; [|done].
  rewrite (Project_findById_valid _ _ _ _ Hv).
  destruct (projects s !! canonical id) as [P|]; simpl; [|done].
  by destruct (_ && _).
Qed.

Lemma updateProject_cases id user body s :
  updateProject isValid canonical validProject id user body s =
  if isValid id then
    match projects s !! canonical id with
    | None => (refuse 404 "Project not found", s)
    | Some P =>
        let P' := patchProject (castRef isValid canonical) body P in
        if bool_decide (owner P ≠ user) then
          (refuse 403 "Not authorized to update this project", s)
        else if validProject P' then
          (json_data (ProjectData P'),
           set_projects (<[canonical id := P']> (projects s)) s)
        else
          (caught "Error updating project"
             (ValidationError "Project validation failed"), s)
    end
  else (caught "Error updating project" (bad_id id), s).
Proof.
  unfold updateProject, try_catch, mbind, M_bind.
  destruct (isValid id) eqn:Hv.
  - rewrite (Project_findById_valid _ _ _ _ Hv).
    destruct (projects s !! canonical id) as [P|]; simpl; [|done].
    case_bool_decide; simpl; [done|].
    unfold Project_save. by destruct (validProject _).
  - by rewrite (Project_findById_bad _ _ Hv).
Qed.

Lemma deleteProject_cases id user s :
  deleteProject isValid canonical id user s =
  if isValid id then
    match projects s !! canonical id with
    | None => (refuse 404 "Project not found", s)
    | Some P =>
        if bool_decide (owner P ≠ user) then
          (refuse 403 "Not authorized to delete this project", s)
        else
          (json_message "Project removed",
           set_projects (delete (canonical id) (projects s)) s)
    end
  else (caught "Error deleting project" (bad_id id), s).
Proof.
  unfold deleteProject, try_catch, mbind, M_bind.
  destruct (isValid id) eqn:Hv.
  - rewrite (Project_findById_valid _ _ _ _ Hv).
    destruct (projects s !! canonical id) as [P|]; simpl; [|done].
    by case_bool_decide.
  - by rewrite (Project_findById_bad _ _ Hv).
Qed.

Lemma addProjectMember_cases id user userId s :
  addProjectMember isValid canonical validProject id user userId s =
  if isValid id then
    match projects s !! canonical id with
    | None => (refuse 404 "Project not found", s)
    | Some P =>
        let P' := with_members (members P ++ [canonical userId]) P in
        if bool_decide (owner P ≠ user) then
          (refuse 403 "Not authorized to modify this project", s)
        else if bool_decide (userId ∈ members P) then
          (refuse 400 "User is already a member of this project", s)
        else if isValid userId then
          if validProject P' then
            (json_data (ProjectData P'),
             set_projects (<[canonical id := P']> (projects s)) s)
          else
            (caught "Error adding member to project"
               (ValidationError "Project validation failed"), s)
        else
          (caught "Error adding member to project" (bad_member userId), s)
    end
  else (caught "Error adding member to project" (bad_id id), s).
Proof.
  unfold addProjectMember, try_catch, mbind, M_bind.
  destruct (isValid id) eqn:Hv.
  - rewrite (Project_findById_valid _ _ _ _ Hv).
    destruct (projects s !! canonical id) as [P|]; simpl; [|done].
    do 2 (case_bool_decide; simpl; [done|]).
    unfold castObjectId. destruct (isValid userId); simpl; [|done].
    unfold Project_save. by destruct (validProject _).
  - by rewrite (Project_findById_bad _ _ Hv).
Qed.

Lemma removeProjectMember_cases id user userId s :
  removeProjectMember isValid canonical validProject id user userId s =
  if isValid id then
    match projects s !! canonical id with
    | None => (refuse 404 "Project not found", s)
    | Some P =>
        let P' :=
          with_members (filter (λ member, member ≠ userId) (members P)) P in
        if bool_decide (owner P ≠ user) then
          (refuse 403 "Not authorized to modify this project", s)
        else if validProject P' then
          (json_data (ProjectData P'),
           set_projects (<[canonical id := P']> (projects s)) s)
        else
          (caught "Error removing member from project"
             (ValidationError "Project validation failed"), s)
    end
  else (caught "Error removing member from project" (bad_id id), s).
Proof.
  unfold removeProjectMember, try_catch, mbind, M_bind.
  destruct (isValid id) eqn:Hv.
  - rewrite (Project_findById_valid _ _ _ _ Hv).
    destruct (projects s !! canonical id) as [P|]; simpl; [|done].
    case_bool_decide; simpl; [done|].
    unfold Project_save. by destruct (validProject _).
  - by rewrite (Project_findById_bad _ _ Hv).
Qed.

End ProjectHandlerCases.

Section ProjectHandlerProperties.

Variable isValid : string → bool.
Variable canonical : string → string.
Variable validProject : Project → bool.

(** X1. A malformed project id is answered 400 by [getProjectById]
    only: the handlers that change a project pass it to [findById]
    unchecked, whose rejection ends in their [catch] clause, 500, with
    nothing written. *)
Theorem project_handlers_malformed_id
    (s : Store) (id user userId : string) (body : ProjectBody) :
  isValid id = false →
  crashed (updateProject isValid canonical validProject id user body) s
  ∧ crashed (deleteProject isValid canonical id user) s
  ∧ crashed
      (addProjectMember isValid canonical validProject id user userId) s
  ∧ crashed
      (removeProjectMember isValid canonical validProject id user userId) s.
Proof.
  intros Hv. unfold crashed.
  rewrite updateProject_cases, deleteProject_cases,
    addProjectMember_cases, removeProjectMember_cases, Hv.
  repeat split.
Qed.

(** X2. For a well-formed id whose ObjectId no project has, updating,
    deleting, adding a member and removing a member answer NotFound
    whoever the requester is, and write nothing. *)
Theorem project_handlers_unknown_id
    (s : Store) (id user userId : string) (body : ProjectBody) :
  isValid id = true →
  projects s !! canonical id = None →
  missing (updateProject isValid canonical validProject id user body) s
  ∧ missing (deleteProject isValid canonical id user) s
  ∧ missing
      (addProjectMember isValid canonical validProject id user userId) s
  ∧ missing
      (removeProjectMember isValid canonical validProject id user userId) s.
Proof.
  intros Hv Hnone. unfold missing.
  rewrite updateProject_cases, deleteProject_cases,
    addProjectMember_cases, removeProjectMember_cases, Hv, Hnone.
  repeat split.
Qed.

(** X3. The four handlers write only when they answer 200: with any
    other answer the store is as it was.  Whatever the answer, users,
    tasks and every project other than the one whose ObjectId the
    request id denotes are left alone, so deleting a project deletes none
    of its tasks. *)
Theorem project_handlers_frame
    (s : Store) (id user userId : string) (body : ProjectBody)
    (h : Handler) :
  h = updateProject isValid canonical validProject id user body
  ∨ h = deleteProject isValid canonical id user
  ∨ h = addProjectMember isValid canonical validProject id user userId
  ∨ h = removeProjectMember isValid canonical validProject id user userId →
  (¬ Succeeded (h s).1 → (h s).2 = s)
  ∧ users (h s).2 = users s
  ∧ tasks (h s).2 = tasks s
  ∧ (∀ other, other ≠ canonical id →
       projects (h s).2 !! other = projects s !! other).
Proof.
  unfold Succeeded.
  intros [->|[->|[->| ->]]];
    [rewrite updateProject_cases | rewrite deleteProject_cases
    | rewrite addProjectMember_cases | rewrite removeProjectMember_cases];
    destruct (isValid id); simpl; try done;
    destruct (projects s !! canonical id) as [P|]; simpl; try done;
    repeat (case_bool_decide; simpl; try done);
    try (destruct (isValid userId); simpl; try done);
    try (destruct (validProject _); simpl; try done);
    (split; [done|]); (split; [done|]); (split; [done|]);
    intros other Hne; simpl.
  all: by rewrite ?lookup_insert_ne, ?lookup_delete_ne by done.
Qed.

(** X4. No request changes the owner of a project: whatever is sent to
    update, add a member or remove one, a project found before and after
    has the same owner. *)
Theorem project_owner_is_immutable
    (s : Store) (id user userId : string) (body : ProjectBody)
    (h : Handler) (k : string) (P P' : Project) :
  h = updateProject isValid canonical validProject id user body
  ∨ h = addProjectMember isValid canonical validProject id user userId
  ∨ h = removeProjectMember isValid canonical validProject id user userId →
  projects s !! k = Some P →
  projects (h s).2 !! k = Some P' →
  owner P' = owner P.
Proof.
  intros Hh HP.
  assert (Hsame : projects s !! k = Some P' → owner P' = owner P)
    by (intros HP'; congruence).
  destruct Hh as [->|[->| ->]];
    [rewrite updateProject_cases | rewrite addProjectMember_cases
    | rewrite removeProjectMember_cases];
    destruct (isValid id); simpl; try done;
    destruct (projects s !! canonical id) as [Q|] eqn:HQ; simpl; try done;
    repeat (case_bool_decide; simpl; try done);
    try (destruct (isValid userId); simpl; try done);
    try (destruct (validProject _); simpl; try done);
    (destruct (decide (canonical id = k)) as [<-|Hne];
      [rewrite lookup_insert_eq; intros [= <-]; simpl; congruence
      |by rewrite lookup_insert_ne]).
Qed.

(** X5. A successful project update is the owner's; it keeps the owner,
    keeps every text field whose value in the request is absent or
    empty, and replaces the members by the list sent, each id cast to
    its ObjectId, the empty list included; without a list in the request
    the members stay. *)
Theorem updateProject_merge_patch
    (s : Store) (id user : string) (body : ProjectBody) :
  let update :=
    updateProject isValid canonical validProject id user body in
  Succeeded (update s).1 →
  ∃ P P',
    projects s !! canonical id = Some P
    ∧ projects (update s).2 !! canonical id = Some P'
    ∧ (update s).1 = json_data (ProjectData P')
    ∧ user = owner P
    ∧ owner P' = owner P
    ∧ (∀ ms, body_members body = Some ms →
         members P' = castRef isValid canonical <$> ms)
    ∧ (body_members body = None → members P' = members P)
    ∧ (falsy (body_name body) = true → name P' = name P)
    ∧ (falsy (body_description body) = true →
       description P' = description P)
    ∧ (falsy (body_status body) = true → status P' = status P)
    ∧ (falsy (body_startDate body) = true → startDate P' = startDate P)
    ∧ (falsy (body_endDate body) = true → endDate P' = endDate P).
Proof.
  simpl. unfold Succeeded. rewrite updateProject_cases.
  destruct (isValid id); simpl; [|discriminate].
  destruct (projects s !! canonical id) as [P|]; simpl; [|discriminate].
  case_bool_decide as Ho; simpl; [discriminate|].
  destruct (validProject _); simpl; [|discriminate].
  intros _. exists P, (patchProject (castRef isValid canonical) body P).
  rewrite lookup_insert_eq.
  repeat split; try done; simpl;
    try (by apply js_or_str_falsy); try (by apply js_or_falsy).
  - by intros ms ->.
  - by intros ->.
Qed.

(** X6. Adding a user who is no member, with the id sent in whatever
    spelling, and then removing that user under the spelling of the
    ObjectId puts the store back exactly as it was.  Removing under a
    spelling that differs from the ObjectId's instead answers 200 and
    leaves the store as the addition made it. *)
Theorem add_then_remove_member
    (s : Store) (id userId : string) (P : Project) :
  isValid id = true →
  projects s !! canonical id = Some P →
  isValid userId = true →
  userId ∉ members P →
  canonical userId ∉ members P →
  validProject P = true →
  validProject (with_members (members P ++ [canonical userId]) P) = true →
  let add :=
    addProjectMember isValid canonical validProject id (owner P) userId in
  let remove sent :=
    removeProjectMember isValid canonical validProject id (owner P) sent in
  Succeeded (add s).1
  ∧ projects (add s).2 !! canonical id
    = Some (with_members (members P ++ [canonical userId]) P)
  ∧ Succeeded (remove (canonical userId) (add s).2).1
  ∧ (remove (canonical userId) (add s).2).2 = s
  ∧ (canonical userId ≠ userId →
     Succeeded (remove userId (add s).2).1
     ∧ (remove userId (add s).2).2 = (add s).2).
Proof.
  intros Hv HP Hu Hraw Hnin HvP Hvadd. simpl.
  rewrite addProjectMember_cases, Hv, HP. simpl.
  rewrite bool_decide_false by (intros Hne; by apply Hne).
  rewrite bool_decide_false by done. rewrite Hu, Hvadd. simpl.
  rewrite !removeProjectMember_cases, Hv. simpl.
  rewrite lookup_insert_eq. simpl.
  rewrite bool_decide_false by (intros Hne; by apply Hne).
  rewrite filter_out_appended by done.
  rewrite with_members_twice, with_members_id, HvP. simpl.
  split; [done|]. split; [done|]. split; [done|]. split.
  - rewrite set_projects_twice, insert_insert_eq.
    by rewrite (insert_id _ _ _ HP), set_projects_id.
  - intros Hcanon.
    rewrite (filter_not_member userId (members P ++ [canonical userId])).
    + rewrite with_members_twice, Hvadd. simpl. split; [done|].
      by rewrite set_projects_twice, insert_insert_eq.
    + intros Hin. apply elem_of_app in Hin as [Hin|Hin]; [done|].
      apply list_elem_of_singleton in Hin. by apply Hcanon.
Qed.

(** X7. After a user has been added with the id sent in the spelling
    of its ObjectId, adding the same user again is refused as a duplicate
    and writes nothing.  With the id sent in another spelling the second
    request is not refused: the test compares the string sent with the
    ObjectIds stored, and when the document validates the request
    answers 200 and the user's ObjectId is stored once more. *)
Theorem addProjectMember_twice
    (s : Store) (id user userId : string) :
  let add :=
    addProjectMember isValid canonical validProject id user userId in
  Succeeded (add s).1 →
  (canonical userId = userId →
   DuplicateMember (add (add s).2).1 ∧ (add (add s).2).2 = (add s).2)
  ∧ (canonical userId ≠ userId →
     ¬ BadRequest (add (add s).2).1
     ∧ ∃ P1,
         projects (add s).2 !! canonical id = Some P1
         ∧ canonical userId ∈ members P1
         ∧ (validProject
              (with_members (members P1 ++ [canonical userId]) P1) = true →
            Succeeded (add (add s).2).1
            ∧ projects (add (add s).2).2 !! canonical id
              = Some (with_members (members P1 ++ [canonical userId]) P1))).
Proof.
  simpl. unfold Succeeded, DuplicateMember, BadRequest.
  rewrite addProjectMember_cases.
  destruct (isValid id) eqn:Hv; simpl; [|discriminate].
  destruct (projects s !! canonical id) as [P|]; simpl; [|discriminate].
  case_bool_decide as Ho; simpl; [discriminate|].
  case_bool_decide as Hin; simpl; [discriminate|].
  destruct (isValid userId) eqn:Hu; simpl; [|discriminate].
  destruct (validProject _); simpl; [|discriminate].
  intros _. rewrite addProjectMember_cases, Hv. simpl.
  rewrite lookup_insert_eq. simpl.
  rewrite bool_decide_false by (intros Hne; by apply Hne).
  assert (Hnew : canonical userId ∈ (members P ++ [canonical userId])%list)
    by (apply elem_of_app; right; by apply list_elem_of_singleton).
  split.
  - intros Hcanon. rewrite Hcanon in Hnew |- *.
    by rewrite bool_decide_true.
  - intros Hcanon. rewrite bool_decide_false.
    + rewrite Hu. split; [by destruct (validProject _)|].
      eexists. split; [done|]. split; [exact Hnew|]. simpl.
      intros ->. simpl. split; [done|]. by rewrite lookup_insert_eq.
    + intros Hin'. apply elem_of_app in Hin' as [Hin'|Hin']; [done|].
      apply list_elem_of_singleton in Hin'. by apply Hcanon.
Qed.

(** X8. A successful removal stores the members whose id differs from
    the string sent, so that string is no member afterwards, however
    often it was listed, and a second removal succeeds again and changes
    nothing further.  When the stored ids are in the spelling of their
    ObjectIds and the id is sent in another spelling, the removal
    succeeds and removes nobody. *)
Theorem removeProjectMember_twice
    (s : Store) (id user userId : string) :
  let remove :=
    removeProjectMember isValid canonical validProject id user userId in
  Succeeded (remove s).1 →
  Succeeded (remove (remove s).2).1
  ∧ (remove (remove s).2).2 = (remove s).2
  ∧ ∃ P P',
      projects s !! canonical id = Some P
      ∧ projects (remove s).2 !! canonical id = Some P'
      ∧ members P' = filter (λ member, member ≠ userId) (members P)
      ∧ (userId ∉ members P')
      ∧ ((∀ member, member ∈ members P → canonical member = member) →
         canonical userId ≠ userId →
         members P' = members P).
Proof.
  simpl. unfold Succeeded.
  rewrite removeProjectMember_cases.
  destruct (isValid id) eqn:Hv; simpl; [|discriminate].
  destruct (projects s !! canonical id) as [P|]; simpl; [|discriminate].
  case_bool_decide as Ho; simpl; [discriminate|].
  destruct (validProject _) eqn:Hvalid; simpl; [|discriminate].
  intros _. rewrite removeProjectMember_cases, Hv. simpl.
  rewrite lookup_insert_eq. simpl.
  rewrite bool_decide_false by (intros Hne; by apply Hne).
  rewrite filter_out_twice, with_members_twice, Hvalid. simpl.
  split; [done|]. split.
  - by rewrite set_projects_twice, insert_insert_eq.
  - eexists P, _. split; [done|]. split; [done|]. simpl.
    split; [done|]. split.
    + rewrite list_elem_of_filter. by intros [Hne _].
    + intros Hstored Hcanon. apply filter_not_member.
      intros Hin. apply Hcanon. by apply Hstored.
Qed.

End ProjectHandlerProperties.

Section TaskHandlerCases.

Variable isValid : string → bool.
Variable canonical : string → string.
Variable validTask : Task → bool.

Lemma Task_findById_bad id s :
  isValid id = false →
  Task_findById isValid canonical id s = (inl (bad_id id), s).
Proof.
  intros Hv. unfold Task_findById, castObjectId. by rewrite Hv.
Qed.

Lemma getTaskById_cases id user s :
  getTaskById isValid canonical id user s =
  if isValid id then
    match tasks s !! canonical id with
    | None => (refuse 404 "Task not found", s)
    | Some T =>
        match projects s !! project T with
        | None => (caught "Error fetching task" null_owner, s)
        | Some P =>
            if denied P user then
              (refuse 403 "Not authorized to access this task", s)
            else (json_data (TaskData T), s)
        end
    end
  else (caught "Error fetching task" (bad_id id), s).
Proof.
  unfold getTaskById, try_catch, mbind, M_bind.
  destruct (isValid id) eqn:Hv.
  - rewrite (Task_findById_valid _ _ _ _ Hv).
    destruct (tasks s !! canonical id) as [T|]; simpl; [|done].
    unfold Project_findByRef, gets.
    destruct (projects s !! project T) as [P|]; simpl; [|done].
    unfold denied. by destruct (_ && _).
  - by rewrite (Task_findById_bad _ _ Hv).
Qed.

Lemma updateTask_cases id user body s :
  updateTask isValid canonical validTask id user body s =
  if isValid id then
    match tasks s !! canonical id with
    | None => (refuse 404 "Task not found", s)
    | Some T =>
        let T' := patchTask (castRef isValid canonical) body T in
        match projects s !! project T with
        | None => (caught "Error updating task" null_owner, s)
        | Some P =>
            if denied P user then
              (refuse 403 "Not authorized to update this task", s)
            else if validTask T' then
              (json_data (TaskData T'),
               set_tasks (<[canonical id := T']> (tasks s)) s)
            else
              (caught "Error updating task"
                 (ValidationError "Task validation failed"), s)
        end
    end
  else (caught "Error updating task" (bad_id id), s).
Proof.
  unfold updateTask, try_catch, mbind, M_bind.
  destruct (isValid id) eqn:Hv.
  - rewrite (Task_findById_valid _ _ _ _ Hv).
    destruct (tasks s !! canonical id) as [T|]; simpl; [|done].
    unfold Project_findByRef, gets.
    destruct (projects s !! project T) as [P|]; simpl; [|done].
    unfold denied. destruct (_ && _); simpl; [done|].
    unfold Task_save. by destruct (validTask _).
  - by rewrite (Task_findById_bad _ _ Hv).
Qed.

Lemma deleteTask_cases id user s :
  deleteTask isValid canonical id user s =
  if isValid id then
    match tasks s !! canonical id with
    | None => (refuse 404 "Task not found", s)
    | Some T =>
        match projects s !! project T with
        | None => (caught "Error deleting task" null_owner, s)
        | Some P =>
            if bool_decide (owner P ≠ user) then
              (refuse 403 "Not authorized to delete this task", s)
            else
              (json_message "Task removed",
               set_tasks (delete (canonical id) (tasks s)) s)
        end
    end
  else (caught "Error deleting task" (bad_id id), s).
Proof.
  unfold deleteTask, try_catch, mbind, M_bind.
  destruct (isValid id) eqn:Hv.
  - rewrite (Task_findById_valid _ _ _ _ Hv).
    destruct (tasks s !! canonical id) as [T|]; simpl; [|done].
    unfold Project_findByRef, gets.
    destruct (projects s !! project T) as [P|]; simpl; [|done].
    by case_bool_decide.
  - by rewrite (Task_findById_bad _ _ Hv).
Qed.

Lemma addComment_cases id user txt s :
  addComment isValid canonical validTask id user txt s =
  if isValid id then
    match tasks s !! canonical id with
    | None => (refuse 404 "Task not found", s)
    | Some T =>
        let T' := with_comments (comments T ++ [mkComment txt user]) T in
        match projects s !! project T with
        | None => (caught "Error adding comment" null_owner, s)
        | Some P =>
            if denied P user then
              (refuse 403 "Not authorized to comment on this task", s)
            else if validTask T' then
              (json_data (TaskData T'),
               set_tasks (<[canonical id := T']> (tasks s)) s)
            else
              (caught "Error adding comment"
                 (ValidationError "Task validation failed"), s)
        end
    end
  else (caught "Error adding comment" (bad_id id), s).
Proof.
  unfold addComment, try_catch, mbind, M_bind.
  destruct (isValid id) eqn:Hv.
  - rewrite (Task_findById_valid _ _ _ _ Hv).
    destruct (tasks s !! canonical id) as [T|]; simpl; [|done].
    unfold Project_findByRef, gets.
    destruct (projects s !! project T) as [P|]; simpl; [|done].
    unfold denied. destruct (_ && _); simpl; [done|].
    unfold Task_save. by destruct (validTask _).
  - by rewrite (Task_findById_bad _ _ Hv).
Qed.

End TaskHandlerCases.

Section TaskHandlerProperties.

Variable isValid : string → bool.
Variable canonical : string → string.
Variable validProject : Project → bool.
Variable validTask : Task → bool.

(** X9. No task handler checks the shape of the task id: a malformed
    one makes [findById] reject, and reading, updating, deleting and
    commenting end in the 500 answer with nothing written. *)
Theorem task_handlers_malformed_id
    (s : Store) (id user txt : string) (body : TaskBody) :
  isValid id = false →
  crashed (getTaskById isValid canonical id user) s
  ∧ crashed (updateTask isValid canonical validTask id user body) s
  ∧ crashed (deleteTask isValid canonical id user) s
  ∧ crashed (addComment isValid canonical validTask id user txt) s.
Proof.
  intros Hv. unfold crashed.
  rewrite getTaskById_cases, updateTask_cases, deleteTask_cases,
    addComment_cases, Hv.
  repeat split.
Qed.

(** X10. For a well-formed id whose ObjectId no task has, the four
    handlers answer NotFound before any project is looked up, whoever
    asks, and write nothing. *)
Theorem task_handlers_unknown_id
    (s : Store) (id user txt : string) (body : TaskBody) :
  isValid id = true →
  tasks s !! canonical id = None →
  missing (getTaskById isValid canonical id user) s
  ∧ missing (updateTask isValid canonical validTask id user body) s
  ∧ missing (deleteTask isValid canonical id user) s
  ∧ missing (addComment isValid canonical validTask id user txt) s.
Proof.
  intros Hv Hnone. unfold missing.
  rewrite getTaskById_cases, updateTask_cases, deleteTask_cases,
    addComment_cases, Hv, Hnone.
  repeat split.
Qed.

(** X11. The task handlers write only when they answer 200, and then
    only the task whose ObjectId the request id denotes: users, projects
    and the other tasks are left alone; reading a task never writes. *)
Theorem task_handlers_frame
    (s : Store) (id user txt : string) (body : TaskBody) (h : Handler) :
  h = getTaskById isValid canonical id user
  ∨ h = updateTask isValid canonical validTask id user body
  ∨ h = deleteTask isValid canonical id user
  ∨ h = addComment isValid canonical validTask id user txt →
  (¬ Succeeded (h s).1 → (h s).2 = s)
  ∧ (getTaskById isValid canonical id user s).2 = s
  ∧ users (h s).2 = users s
  ∧ projects (h s).2 = projects s
  ∧ (∀ other, other ≠ canonical id →
       tasks (h s).2 !! other = tasks s !! other).
Proof.
  unfold Succeeded.
  assert (Hget : (getTaskById isValid canonical id user s).2 = s).
  { rewrite getTaskById_cases.
    destruct (isValid id); [|done].
    destruct (tasks s !! canonical id) as [T|]; [|done].
    destruct (projects s !! project T) as [P|]; [|done].
    by destruct (denied P user). }
  intros Hh. split; [|split; [done|]]; revert Hh;
    (intros [->|[->|[->| ->]]];
    [rewrite getTaskById_cases | rewrite updateTask_cases
    | rewrite deleteTask_cases | rewrite addComment_cases];
    destruct (isValid id); simpl; try done;
    destruct (tasks s !! canonical id) as [T|]; simpl; try done;
    destruct (projects s !! project T) as [P|]; simpl; try done;
    try (destruct (denied P user); simpl; try done);
    try (case_bool_decide; simpl; try done);
    try (destruct (validTask _); simpl; try done)).
  all: split; [done|]; split; [done|]; intros other Hne.
  all: by rewrite ?lookup_insert_ne, ?lookup_delete_ne by done.
Qed.

(** X12. Once a task has been deleted it is gone for everyone: reading
    it and deleting it again answer NotFound, the project owner
    included. *)
Theorem deleteTask_then_gone
    (s : Store) (id user requester : string) :
  Succeeded (deleteTask isValid canonical id user s).1 →
  let s1 := (deleteTask isValid canonical id user s).2 in
  tasks s1 !! canonical id = None
  ∧ missing (getTaskById isValid canonical id requester) s1
  ∧ missing (deleteTask isValid canonical id requester) s1.
Proof.
  unfold Succeeded, missing. simpl. rewrite deleteTask_cases.
  destruct (isValid id) eqn:Hv; simpl; [|discriminate].
  destruct (tasks s !! canonical id) as [T|]; simpl; [|discriminate].
  destruct (projects s !! project T) as [P|]; simpl; [|discriminate].
  case_bool_decide; simpl; [discriminate|].
  intros _. rewrite getTaskById_cases, deleteTask_cases, Hv. simpl.
  rewrite lookup_delete_eq. repeat split.
Qed.

(** X13. Deleting a project deletes none of its tasks and leaves them
    unreachable: afterwards the project is NotFound for everyone, its
    tasks are still stored, and reading, updating, deleting or
    commenting on any of them ends in the 500 answer, for the former
    owner as for anyone else. *)
Theorem deleteProject_orphans_tasks
    (s : Store) (id user requester tid txt : string) (T : Task)
    (body : TaskBody) :
  Succeeded (deleteProject isValid canonical id user s).1 →
  isValid tid = true →
  tasks s !! canonical tid = Some T →
  project T = canonical id →
  let s1 := (deleteProject isValid canonical id user s).2 in
  projects s1 !! canonical id = None
  ∧ tasks s1 !! canonical tid = Some T
  ∧ NotFound (getProjectById isValid canonical id requester s1).1
  ∧ crashed (getTaskById isValid canonical tid requester) s1
  ∧ crashed (updateTask isValid canonical validTask tid requester body) s1
  ∧ crashed (deleteTask isValid canonical tid requester) s1
  ∧ crashed (addComment isValid canonical validTask tid requester txt) s1.
Proof.
  unfold Succeeded, crashed. simpl. rewrite deleteProject_cases.
  intros Hok Htv HT HTp. revert Hok.
  destruct (isValid id) eqn:Hv; simpl; [|discriminate].
  destruct (projects s !! canonical id) as [P|]; simpl; [|discriminate].
  case_bool_decide; simpl; [discriminate|].
  intros _.
  rewrite getProjectById_cases, getTaskById_cases, updateTask_cases,
    deleteTask_cases, addComment_cases, Htv, Hv. simpl.
  rewrite HT, HTp, lookup_delete_eq. repeat split.
Qed.

(** X14. A removal takes effect at once for the member whose id is the
    string sent: that user, if not the owner, is refused the project and
    is refused reading, updating, deleting and commenting on each of its
    tasks.  A member whose id differs from the string sent, as when the
    id is sent in another spelling than that of its ObjectId, keeps
    reading the project and its tasks after the removal has answered
    200. *)
Theorem removed_member_loses_access
    (s : Store) (id user userId member tid txt : string) (T : Task)
    (body : TaskBody) :
  Succeeded
    (removeProjectMember isValid canonical validProject id user userId s).1 →
  member ≠ user →
  isValid tid = true →
  tasks s !! canonical tid = Some T →
  project T = canonical id →
  let s1 :=
    (removeProjectMember isValid canonical validProject id user userId s).2
  in
  (member = userId →
   Forbidden (getProjectById isValid canonical id member s1).1
   ∧ refused (getTaskById isValid canonical tid member) s1
   ∧ refused (updateTask isValid canonical validTask tid member body) s1
   ∧ refused (deleteTask isValid canonical tid member) s1
   ∧ refused (addComment isValid canonical validTask tid member txt) s1)
  ∧ (member ≠ userId →
     ∀ P, projects s !! canonical id = Some P →
          member ∈ members P →
          Succeeded (getProjectById isValid canonical id member s1).1
          ∧ (getTaskById isValid canonical tid member s1).1
            = json_data (TaskData T)).
Proof.
  unfold Succeeded, refused, Forbidden. simpl.
  rewrite removeProjectMember_cases.
  intros Hok Hne Htv HT HTp. revert Hok.
  destruct (isValid id) eqn:Hv; simpl; [|discriminate].
  destruct (projects s !! canonical id) as [P|]; simpl; [|discriminate].
  case_bool_decide as Ho; simpl; [discriminate|].
  destruct (validProject _); simpl; [|discriminate].
  intros _.
  rewrite getProjectById_cases, getTaskById_cases, updateTask_cases,
    deleteTask_cases, addComment_cases, Htv, Hv. simpl.
  rewrite HT, HTp, lookup_insert_eq. simpl.
  split.
  - intros ->.
    assert (Hout :
      userId ∉ filter (λ member, member ≠ userId) (members P))
      by (rewrite list_elem_of_filter; by intros [Hx _]).
    assert (Hdenied :
      denied (with_members
                (filter (λ member, member ≠ userId) (members P)) P)
             userId = true).
    { apply denied_true. unfold canAccess. simpl.
      intros [He|Hin]; [|done]. congruence. }
    rewrite Hdenied. simpl.
    rewrite (bool_decide_false (owner P = userId)) by congruence.
    rewrite (bool_decide_false (userId ∈ _)) by done.
    rewrite (bool_decide_true (owner P ≠ userId)) by congruence.
    repeat split.
  - intros Hother Q [= <-] Hin.
    assert (Hkept :
      member ∈ filter (λ m, m ≠ userId) (members P))
      by (by apply list_elem_of_filter).
    assert (Hallowed :
      denied (with_members (filter (λ m, m ≠ userId) (members P)) P)
             member = false).
    { apply denied_false. right. exact Hkept. }
    rewrite Hallowed. simpl.
    rewrite (bool_decide_true (member ∈ _)) by done.
    by rewrite andb_false_r.
Qed.

(** X15. Adding a member takes effect at once: the user whose ObjectId
    the id sent denotes reads the project and reads each of its
    tasks. *)
Theorem added_member_gains_access
    (s : Store) (id user userId tid : string) (T : Task) :
  Succeeded
    (addProjectMember isValid canonical validProject id user userId s).1 →
  isValid tid = true →
  tasks s !! canonical tid = Some T →
  project T = canonical id →
  let s1 :=
    (addProjectMember isValid canonical validProject id user userId s).2 in
  Succeeded
    (getProjectById isValid canonical id (canonical userId) s1).1
  ∧ (getTaskById isValid canonical tid (canonical userId) s1).1
    = json_data (TaskData T).
Proof.
  unfold Succeeded. simpl. rewrite addProjectMember_cases.
  intros Hok Htv HT HTp. revert Hok.
  destruct (isValid id) eqn:Hv; simpl; [|discriminate].
  destruct (projects s !! canonical id) as [P|]; simpl; [|discriminate].
  case_bool_decide as Ho; simpl; [discriminate|].
  case_bool_decide as Hin; simpl; [discriminate|].
  destruct (isValid userId); simpl; [|discriminate].
  destruct (validProject _); simpl; [|discriminate].
  intros _.
  assert (Hnew : canonical userId ∈ (members P ++ [canonical userId])%list)
    by (apply elem_of_app; right; by apply list_elem_of_singleton).
  assert (Hallowed :
    denied (with_members (members P ++ [canonical userId]) P)
           (canonical userId) = false).
  { apply denied_false. right. exact Hnew. }
  rewrite getProjectById_cases, getTaskById_cases, Htv, Hv. simpl.
  rewrite HT, HTp, lookup_insert_eq, Hallowed. simpl.
  rewrite (bool_decide_true (canonical userId ∈ _)) by done.
  by rewrite andb_false_r.
Qed.

End TaskHandlerProperties.

Section Creation.

Variable isValid : string → bool.
Variable canonical : string → string.
Variable validProject : Project → bool.
Variable validTask : Task → bool.
Variable newProjectId : gmap string Project → string.
Variable newTaskId : gmap string Task → string.
Variable defaultProjectStatus : string.
Variable defaultTaskStatus : string.
Variable defaultPriority : string.

#[local] Abbreviation create_project :=
  (createProject isValid canonical validProject newProjectId
     defaultProjectStatus).
#[local] Abbreviation create_task :=
  (createTask isValid canonical validTask newTaskId defaultTaskStatus
     defaultPriority).

(** X16. A project that is created has the requester as owner, the
    members sent, each id cast to its ObjectId, or none when no list is
    sent, and the status of the schema; its creator reads it at once
    under its new id; users, tasks and the other projects are left alone.
    When the project is not created nothing is written. *)
Theorem createProject_creates
    (s : Store) (user : string) (body : NewProjectBody) :
  let id := newProjectId (projects s) in
  let s1 := (create_project user body s).2 in
  (¬ Created (create_project user body s).1 → s1 = s)
  ∧ (Created (create_project user body s).1 →
     ∃ P,
       projects s1 !! id = Some P
       ∧ data (create_project user body s).1 = Some (ProjectData P)
       ∧ owner P = user
       ∧ name P = new_name body
       ∧ members P
         = castRef isValid canonical <$> default [] (new_members body)
       ∧ status P = defaultProjectStatus
       ∧ (isValid id = true → canonical id = id →
          (getProjectById isValid canonical id user s1).1
          = json_data (ProjectData P))
       ∧ users s1 = users s
       ∧ tasks s1 = tasks s
       ∧ (∀ other, other ≠ id →
            projects s1 !! other = projects s !! other)).
Proof.
  simpl. unfold createProject, try_catch, mbind, M_bind, Project_create,
    Created.
  destruct (validProject _); simpl; [|by split].
  split; [done|]. intros _. eexists. split; [apply lookup_insert_eq|].
  repeat split.
  - intros Hv Hcanon. rewrite getProjectById_cases, Hv, Hcanon. simpl.
    rewrite lookup_insert_eq. simpl.
    by rewrite bool_decide_true.
  - intros other Hne. by rewrite lookup_insert_ne.
Qed.

(** X17. Creating a task looks the project up first: a malformed
    project id ends in the 500 answer, a well-formed one whose ObjectId
    no project has in NotFound whoever asks, and a requester who is
    neither owner nor member of the project is refused with Forbidden;
    in each case nothing is written. *)
Theorem createTask_guards
    (s : Store) (user : string) (body : NewTaskBody) :
  (isValid (new_project body) = false → crashed (create_task user body) s)
  ∧ (isValid (new_project body) = true →
     match projects s !! canonical (new_project body) with
     | None => missing (create_task user body) s
     | Some P =>
         (¬ canAccess P user → refused (create_task user body) s)
         ∧ (Created (create_task user body s).1 → canAccess P user)
     end).
Proof.
  unfold crashed, missing, refused, createTask, try_catch, mbind, M_bind.
  split; intros Hv.
  - by rewrite (Project_findById_bad _ _ _ _ Hv).
  - rewrite (Project_findById_valid _ _ _ _ Hv).
    destruct (projects s !! canonical (new_project body)) as [P|]; simpl;
      [|done].
    fold (denied P user).
    destruct (denied P user) eqn:Hd; simpl.
    + split; [done|]. discriminate.
    + apply denied_false in Hd. split; [done|]. by intros _.
Qed.

(** X18. A task that is created belongs to the project whose ObjectId
    the request names, has the requester as creator, the assignee sent,
    cast to its ObjectId, no comments and the status of the schema,
    whatever else is sent; its creator reads it at once under its new id;
    users, projects and the other tasks are left alone. *)
Theorem createTask_creates
    (s : Store) (user : string) (body : NewTaskBody) :
  let id := newTaskId (tasks s) in
  let s1 := (create_task user body s).2 in
  Created (create_task user body s).1 →
  ∃ T,
    tasks s1 !! id = Some T
    ∧ data (create_task user body s).1 = Some (TaskData T)
    ∧ createdBy T = user
    ∧ project T = canonical (new_project body)
    ∧ title T = new_title body
    ∧ assignedTo T = castRef isValid canonical <$> new_assignedTo body
    ∧ comments T = []
    ∧ task_status T = defaultTaskStatus
    ∧ (isValid id = true → canonical id = id →
       (getTaskById isValid canonical id user s1).1
       = json_data (TaskData T))
    ∧ users s1 = users s
    ∧ projects s1 = projects s
    ∧ (∀ other, other ≠ id → tasks s1 !! other = tasks s !! other).
Proof.
  simpl. unfold createTask, try_catch, mbind, M_bind, Task_create, Created.
  destruct (isValid (new_project body)) eqn:Hv.
  2: { by rewrite (Project_findById_bad _ _ _ _ Hv). }
  rewrite (Project_findById_valid _ _ _ _ Hv).
  destruct (projects s !! canonical (new_project body)) as [P|] eqn:HP;
    simpl; [|discriminate].
  fold (denied P user).
  destruct (denied P user) eqn:Hd; simpl; [discriminate|].
  destruct (validTask _); simpl; [|discriminate].
  intros _. eexists. split; [apply lookup_insert_eq|].
  repeat split.
  - intros Hid Hcanon. rewrite getTaskById_cases, Hid, Hcanon. simpl.
    rewrite lookup_insert_eq. simpl. by rewrite HP, Hd.
  - intros other Hne. by rewrite lookup_insert_ne.
Qed.

End Creation.

Section OwnTasks.

Variable createdAt : string → nat.

Lemma newest_first_total : Total (newest_first createdAt).
Proof. intros a b. unfold newest_first. lia. Qed.

Lemma newest_first_transitive : Transitive (newest_first createdAt).
Proof. intros a b c. unfold newest_first. lia. Qed.

(** What [Task.find(query).sort({ createdAt: -1 })] resolves to. *)
Lemma Task_find_sorted_spec (query : string * Task → Prop)
    `{∀ doc, Decision (query doc)} (s : Store) :
  let l := merge_sort (newest_first createdAt)
             (filter query (map_to_list (tasks s))) in
  Task_find_sorted createdAt query s = (inr l, s)
  ∧ StronglySorted (newest_first createdAt) l
  ∧ NoDup l
  ∧ ∀ id T, (id, T) ∈ l ↔ tasks s !! id = Some T ∧ query (id, T).
Proof.
  simpl. split; [reflexivity|]. split; [|split].
  - apply (@StronglySorted_merge_sort _ (newest_first createdAt) _
             newest_first_transitive newest_first_total).
  - rewrite merge_sort_Permutation.
    apply NoDup_filter, NoDup_map_to_list.
  - intros id T. rewrite merge_sort_Permutation, list_elem_of_filter.
    rewrite elem_of_map_to_list. tauto.
Qed.

Lemma getMyTasks_assigned_spec (s : Store) (user : string) :
  ∃ l,
    reply_data (getMyTasks createdAt user s).1 = Some l
    ∧ ∀ id T,
        (id, T) ∈ l ↔ tasks s !! id = Some T ∧ assignedTo T = Some user.
Proof.
  unfold getMyTasks, try_catch_reply, mbind, M_bind.
  destruct (Task_find_sorted_spec (assigned_to user) s)
    as (_ & _ & _ & Hin).
  simpl. eexists. split; [reflexivity|]. apply Hin.
Qed.

(** X22. The requester's own tasks: each task assigned to the requester
    once, no other task, the most recently created first, always with
    200 and without consulting any project; nothing is written. *)
Theorem getMyTasks_lists_assigned (s : Store) (user : string) :
  (getMyTasks createdAt user s).2 = s
  ∧ reply_code (getMyTasks createdAt user s).1 = 200
  ∧ ∃ l,
      reply_data (getMyTasks createdAt user s).1 = Some l
      ∧ StronglySorted (newest_first createdAt) l
      ∧ NoDup l
      ∧ ∀ id T,
          (id, T) ∈ l ↔ tasks s !! id = Some T ∧ assignedTo T = Some user.
Proof.
  unfold getMyTasks, try_catch_reply, mbind, M_bind.
  destruct (Task_find_sorted_spec (assigned_to user) s)
    as (_ & Hsorted & Hnodup & Hin).
  simpl. split; [done|]. split; [done|].
  eexists. split; [reflexivity|].
  split; [done|]. split; [done|]. exact Hin.
Qed.

End OwnTasks.

Section Listing.

Variable isValid : string → bool.
Variable canonical : string → string.
Variable createdAt : string → nat.

(** X19. The project listing holds each project the requester owns or
    is a member of, once, and no other project; it always answers 200
    and writes nothing. *)
Theorem getProjects_lists_accessible (s : Store) (user : string) :
  (getProjects user s).2 = s
  ∧ reply_code (getProjects user s).1 = 200
  ∧ ∃ l,
      reply_data (getProjects user s).1 = Some l
      ∧ NoDup l
      ∧ ∀ id P, (id, P) ∈ l ↔ projects s !! id = Some P ∧ canAccess P user.
Proof.
  unfold getProjects, try_catch_reply, mbind, M_bind,
    Project_find_owner_or_member, gets. simpl.
  split; [done|]. split; [done|]. eexists. split; [reflexivity|]. split.
  - apply NoDup_filter, NoDup_map_to_list.
  - intros id P. rewrite list_elem_of_filter, elem_of_map_to_list.
    unfold matches_owner_or_member, canAccess. simpl.
    split.
    + intros [[Ho|Hm] HP]; split; auto.
    + intros [HP [Ho|Hm]]; split; auto.
Qed.

(** X20. The listing and the single read agree: for a well-formed id,
    in whatever spelling, the project with the ObjectId it denotes is in
    the requester's listing exactly when reading it by that id succeeds
    for that requester. *)
Theorem getProjects_agrees_with_getProjectById
    (s : Store) (id user : string) :
  isValid id = true →
  (∃ l P, reply_data (getProjects user s).1 = Some l
          ∧ (canonical id, P) ∈ l)
  ↔ Succeeded (getProjectById isValid canonical id user s).1.
Proof.
  intros Hv. unfold Succeeded. rewrite getProjectById_cases, Hv. simpl.
  unfold getProjects, try_catch_reply, mbind, M_bind,
    Project_find_owner_or_member, gets. simpl.
  split.
  - intros (l & P & [= <-] & Hin).
    apply list_elem_of_filter in Hin as [Hacc HP].
    apply elem_of_map_to_list in HP. rewrite HP.
    unfold matches_owner_or_member in Hacc. simpl in Hacc.
    destruct Hacc as [Ho|Hm].
    + by rewrite (bool_decide_true _ Ho).
    + rewrite (bool_decide_true _ Hm). simpl. by rewrite andb_false_r.
  - destruct (projects s !! canonical id) as [P|] eqn:HP; simpl;
      [|discriminate].
    destruct (bool_decide_reflect (owner P = user)) as [Ho|Ho];
      destruct (bool_decide_reflect (user ∈ members P)) as [Hm|Hm];
      simpl; try discriminate; intros _; eexists _, P;
      (split; [reflexivity|]);
      apply list_elem_of_filter; (split; [|by apply elem_of_map_to_list]);
      unfold matches_owner_or_member; simpl; auto.
Qed.

(** X21. Listing the tasks of a project: a malformed project id ends in
    the 500 answer, a well-formed one whose ObjectId no project has in
    NotFound, a requester who is neither owner nor member in Forbidden;
    an owner or member gets each task of that project once, no other
    task, the most recently created first.  Nothing is written. *)
Theorem getProjectTasks_lists_project
    (s : Store) (projectId user : string) :
  let reply :=
    (getProjectTasks isValid canonical createdAt projectId user s).1 in
  (getProjectTasks isValid canonical createdAt projectId user s).2 = s
  ∧ (isValid projectId = false → reply_code reply = 500)
  ∧ (isValid projectId = true →
     match projects s !! canonical projectId with
     | None => reply_code reply = 404
     | Some P =>
         (¬ canAccess P user →
          reply_code reply = 403 ∧ reply_data reply = None)
         ∧ (canAccess P user →
            reply_code reply = 200
            ∧ ∃ l,
                reply_data reply = Some l
                ∧ StronglySorted (newest_first createdAt) l
                ∧ NoDup l
                ∧ ∀ id T,
                    (id, T) ∈ l
                    ↔ tasks s !! id = Some T
                      ∧ project T = canonical projectId)
     end).
Proof.
  simpl. unfold getProjectTasks, try_catch_reply, mbind, M_bind.
  destruct (isValid projectId) eqn:Hv.
  2: { rewrite (Project_findById_bad _ _ _ _ Hv). by repeat split. }
  rewrite (Project_findById_valid _ _ _ _ Hv).
  destruct (projects s !! canonical projectId) as [P|]; simpl;
    [|by repeat split].
  fold (denied P user).
  destruct (Task_find_sorted_spec createdAt
              (in_project (canonical projectId)) s)
    as (_ & Hsorted & Hnodup & Hin).
  destruct (denied P user) eqn:Hd; simpl.
  - apply denied_true in Hd. repeat split; try done.
  - apply denied_false in Hd.
    split; [done|]. split; [discriminate|]. intros _.
    split; [done|]. intros _. split; [done|].
    eexists. split; [reflexivity|].
    split; [done|]. split; [done|]. exact Hin.
Qed.

(** X23. Assignment gives no access to the task itself: a task
    assigned to a user who is neither owner nor member of its project is
    in that user's own tasks, and reading it by id is refused to that
    user with Forbidden. *)
Theorem assigned_task_listed_but_forbidden
    (s : Store) (id user : string) (T : Task) (P : Project) :
  isValid id = true →
  tasks s !! canonical id = Some T →
  assignedTo T = Some user →
  projects s !! project T = Some P →
  ¬ canAccess P user →
  (∃ l, reply_data (getMyTasks createdAt user s).1 = Some l
        ∧ (canonical id, T) ∈ l)
  ∧ Forbidden (getTaskById isValid canonical id user s).1.
Proof.
  intros Hv HT Hassigned HP Hno. split.
  - destruct (getMyTasks_assigned_spec createdAt s user)
      as (l & Hdata & Hin).
    exists l. split; [done|]. by apply Hin.
  - unfold Forbidden. rewrite getTaskById_cases, Hv, HT, HP.
    apply denied_true in Hno. by rewrite Hno.
Qed.

End Listing.

Lemma find_app_fresh {A} (f : A → bool) (l : list A) (x : A) :
  find f l = None → f x = true → find f (l ++ [x]) = Some x.
Proof.
  induction l as [|y l IH]; simpl.
  - intros _ ->. done.
  - destruct (f y); [discriminate|]. exact IH.
Qed.

Lemma find_weaken {A} (f g : A → bool) (l : list A) :
  (∀ x, g x = true → f x = true) → find f l = None → find g l = None.
Proof.
  intros Hfg. induction l as [|y l IH]; simpl; [done|].
  destruct (f y) eqn:Hf; [discriminate|].
  destruct (g y) eqn:Hg; [|exact IH].
  apply Hfg in Hg. congruence.
Qed.

Lemma find_replace_user (u : User) (l : list User) :
  is_Some (find (λ v, bool_decide (user_id v = user_id u)) l) →
  find (λ v, bool_decide (user_id v = user_id u)) (replace_user u l)
  = Some u.
Proof.
  induction l as [|v l IH]; simpl; [by intros [? ?]|].
  case_bool_decide as Hv; simpl.
  - intros _. by rewrite bool_decide_true.
  - intros Hsome. rewrite bool_decide_false by done. by apply IH.
Qed.

Lemma find_remove_user (id : string) (l : list User) :
  NoDup (user_id <$> l) →
  find (λ v, bool_decide (user_id v = id)) (remove_user id l) = None.
Proof.
  induction l as [|v l IH]; simpl; [done|].
  intros Hnd. apply NoDup_cons in Hnd as [Hfresh Hnd].
  case_bool_decide as Hv; simpl.
  - subst id. clear IH. induction l as [|w l IH]; simpl; [done|].
    apply not_elem_of_cons in Hfresh as [Hne Hfresh].
    apply NoDup_cons in Hnd as [_ Hnd].
    rewrite bool_decide_false by done. by apply IH.
  - rewrite bool_decide_false by done. by apply IH.
Qed.

Lemma length_replace_user (u : User) (l : list User) :
  List.length (replace_user u l) = List.length l.
Proof.
  induction l as [|v l IH]; simpl; [done|].
  case_bool_decide; simpl; [done|]. by rewrite IH.
Qed.

Lemma find_app_absent {A} (f : A → bool) (l : list A) (x : A) :
  (∀ y, y ∈ l → f y = false) → f x = true → find f (l ++ [x]) = Some x.
Proof.
  intros Hnone Hx. apply find_app_fresh; [|done].
  destruct (find f l) as [y|] eqn:Hfind; [|done].
  apply find_some in Hfind as [Hin Hy].
  apply list_elem_of_In, Hnone in Hin. congruence.
Qed.

Section Login.

Variable validUser : User → bool.
Variable newObjectId : list User → string.
Variable hash : string → string.
Variable jwt_sign : string → string.
Variable comparePassword : string → string → bool.

#[local] Abbreviation signup :=
  (register newObjectId hash jwt_sign validUser).
#[local] Abbreviation signin := (login comparePassword jwt_sign).

(** X24. A failed login does not say why: when no stored user with
    that email has a matching password, whether or not the email is
    known, the answer is the same 401; a login that succeeds answers
    with a stored user of that email whose password matches.  Logging in
    never writes. *)
Theorem login_failures_indistinguishable (s : Store) (e pw : string) :
  (signin e pw s).2 = s
  ∧ ((∀ u, u ∈ users s → email u = e →
        comparePassword pw (password u) = false) →
     (signin e pw s).1 = refuse 401 "Invalid email or password")
  ∧ (Succeeded (signin e pw s).1 →
     ∃ u a,
       u ∈ users s ∧ email u = e
       ∧ comparePassword pw (password u) = true
       ∧ data (signin e pw s).1 = Some (UserData a)
       ∧ auth_id a = user_id u ∧ auth_role a = role u).
Proof.
  unfold login, try_catch, mbind, M_bind, User_findOne_email, gets,
    Succeeded. simpl.
  destruct (find _ (users s)) as [u|] eqn:Hfind; simpl.
  - apply find_some in Hfind as [Hin He].
    apply list_elem_of_In in Hin. apply bool_decide_eq_true in He.
    destruct (comparePassword pw (password u)) eqn:Hpw; simpl.
    + split; [done|]. split.
      * intros Hnone. rewrite (Hnone u Hin He) in Hpw. discriminate.
      * intros _. by eexists u, _.
    + split; [done|]. split; [done|]. discriminate.
  - split; [done|]. split; [done|]. discriminate.
Qed.

(** X25. After a successful registration, logging in with the same
    email and password succeeds and answers with the id, username,
    email and role the registration answered, provided the password
    check accepts a password against its own hash; a password the check
    rejects against that hash gets the 401. *)
Theorem register_then_login
    (s : Store) (body : RegisterBody) (pw : string) :
  Created (signup body s).1 →
  comparePassword (body_password body) (hash (body_password body)) = true →
  comparePassword pw (hash (body_password body)) = false →
  let s1 := (signup body s).2 in
  (∃ a a',
     data (signup body s).1 = Some (UserData a)
     ∧ (signin (body_email body) (body_password body) s1).1
       = json_data (UserData a')
     ∧ auth_id a' = auth_id a
     ∧ auth_username a' = auth_username a
     ∧ auth_email a' = auth_email a
     ∧ auth_role a' = auth_role a)
  ∧ (signin (body_email body) pw s1).1
    = refuse 401 "Invalid email or password".
Proof.
  unfold register, login, try_catch, mbind, M_bind,
    User_findOne_email_or_username, User_findOne_email, gets, User_create,
    Created. simpl.
  destruct (find _ (users s)) as [v|] eqn:Hfind; simpl; [discriminate|].
  destruct (validUser _); simpl; [|discriminate].
  intros _ Hsame Hother.
  assert (Hnone :
    find (λ u, bool_decide (email u = body_email body)) (users s) = None).
  { revert Hfind. apply find_weaken. intros x Hx. by rewrite Hx. }
  rewrite (find_app_fresh _ _ _ Hnone) by (simpl; by rewrite bool_decide_true).
  simpl. rewrite Hsame, Hother. simpl.
  split; [|done]. by eexists _, _.
Qed.

(** X29. After a successful registration whose new id no earlier user
    bears, the profile read for that id as requester is the one
    registered: username, email and names as sent, the role decided at
    registration, and no password. *)
Theorem register_then_getProfile (s : Store) (body : RegisterBody) :
  Created (signup body s).1 →
  (∀ u, u ∈ users s → user_id u ≠ newObjectId (users s)) →
  getProfile (newObjectId (users s)) (signup body s).2
  = (reply_with
       (mkProfile (newObjectId (users s)) (body_username body)
          (body_email body) (body_firstName body) (body_lastName body)
          (userRole (body_role body))),
     (signup body s).2).
Proof.
  unfold register, getProfile, try_catch, try_catch_reply, mbind, M_bind,
    User_findOne_email_or_username, User_findByRef, gets,
    User_create, Created. simpl.
  destruct (find _ (users s)) as [v|]; simpl; [discriminate|].
  destruct (validUser _); simpl; [|discriminate].
  intros _ Hfresh.
  rewrite find_app_absent; [done| |].
  - intros y Hy. apply bool_decide_eq_false. by apply Hfresh.
  - simpl. by apply bool_decide_eq_true.
Qed.

End Login.

Section Users.

Variable isValid : string → bool.
Variable canonical : string → string.
Variable validUser : User → bool.

(** X26. A successful user update keeps the user's id and stored
    password, keeps each of username, email, first name, last name and
    role whose value in the request is absent or empty, stores any
    non-empty role that is sent, keeps the number of users, and touches
    no project or task; reading the user by id afterwards gives the
    answer the update gave. *)
Theorem updateUser_merge_patch
    (s : Store) (id : string) (body : UserBody) :
  let update := updateUser isValid canonical validUser id body in
  reply_code (update s).1 = 200 →
  ∃ u u',
    u ∈ users s ∧ user_id u = canonical id
    ∧ u' ∈ users (update s).2
    ∧ reply_data (update s).1 = Some (profile_of u')
    ∧ user_id u' = canonical id
    ∧ password u' = password u
    ∧ (falsy (upd_username body) = true → username u' = username u)
    ∧ (falsy (upd_email body) = true → email u' = email u)
    ∧ (falsy (upd_firstName body) = true → firstName u' = firstName u)
    ∧ (falsy (upd_lastName body) = true → lastName u' = lastName u)
    ∧ (falsy (upd_role body) = true → role u' = role u)
    ∧ (∀ r, upd_role body = Some r → r ≠ "" → role u' = r)
    ∧ List.length (users (update s).2) = List.length (users s)
    ∧ projects (update s).2 = projects s
    ∧ tasks (update s).2 = tasks s
    ∧ (getUserById isValid canonical id (update s).2).1 = (update s).1.
Proof.
  simpl. unfold updateUser, getUserById, try_catch_reply, mbind, M_bind,
    User_findById, castObjectId, gets, User_save. simpl.
  destruct (isValid id) eqn:Hv; simpl; [|discriminate].
  destruct (find _ (users s)) as [u|] eqn:Hfind; simpl; [|discriminate].
  destruct (validUser _); simpl; [|discriminate].
  intros _.
  pose proof Hfind as Hu. apply find_some in Hu as [Hin Hid].
  apply list_elem_of_In in Hin. apply bool_decide_eq_true in Hid.
  assert (Hfound :
    find (λ v, bool_decide (user_id v = canonical id))
         (replace_user (patchUser body u) (users s))
    = Some (patchUser body u)).
  { pose proof (find_replace_user (patchUser body u) (users s)) as Hr.
    simpl in Hr. rewrite Hid in Hr. apply Hr. by rewrite Hfind. }
  exists u, (patchUser body u).
  split; [done|]. split; [done|]. split.
  { apply find_some in Hfound as [Hin' _]. by apply list_elem_of_In. }
  split; [done|]. split; [done|]. split; [done|].
  split; [by apply js_or_str_falsy|].
  split; [by apply js_or_str_falsy|].
  split; [by apply js_or_str_falsy|].
  split; [by apply js_or_str_falsy|].
  split; [by apply js_or_str_falsy|]. split.
  { intros r Hr Hne. simpl. rewrite Hr. simpl.
    by rewrite bool_decide_false. }
  split; [apply length_replace_user|].
  split; [done|]. split; [done|].
  simpl. by rewrite Hfound.
Qed.

(** X27. Deleting a user deletes nothing else: projects and tasks, those
    the user owns, created or is assigned included, stay as they are;
    with user ids distinct, reading or deleting the user afterwards
    answers NotFound.  An unknown id is answered NotFound and nothing is
    written. *)
Theorem deleteUser_no_cascade (s : Store) (id : string) :
  let s1 := (deleteUser isValid canonical id s).2 in
  projects s1 = projects s
  ∧ tasks s1 = tasks s
  ∧ (¬ Succeeded (deleteUser isValid canonical id s).1 → s1 = s)
  ∧ (Succeeded (deleteUser isValid canonical id s).1 →
     NoDup (user_id <$> users s) →
     reply_code (getUserById isValid canonical id s1).1 = 404
     ∧ missing (deleteUser isValid canonical id) s1).
Proof.
  simpl. unfold missing, NotFound, Succeeded.
  unfold deleteUser, getUserById, try_catch, try_catch_reply, mbind, M_bind,
    User_findById, castObjectId, gets, User_deleteOne, modify. simpl.
  destruct (isValid id) eqn:Hv; simpl; [|by repeat split].
  destruct (find _ (users s)) as [u|] eqn:Hfind; simpl;
    [|by repeat split].
  split; [done|]. split; [done|]. split; [done|].
  intros _ Hnd.
  apply find_some in Hfind as [_ Hid].
  apply bool_decide_eq_true in Hid. rewrite Hid.
  by rewrite (find_remove_user (canonical id) _ Hnd).
Qed.

(** X28. The debugging route asks for no requester at all: for a project
    that a user is refused by [getProjectById], it still answers 200 with
    the owner, the members and their number.  It answers 400 to a
    malformed id, NotFound to a well-formed id whose ObjectId no project
    has, and never writes. *)
Theorem debugProject_discloses_members
    (s : Store) (id user : string) :
  (debugProject isValid canonical id s).2 = s
  ∧ (isValid id = false →
     reply_code (debugProject isValid canonical id s).1 = 400)
  ∧ (isValid id = true →
     match projects s !! canonical id with
     | None => reply_code (debugProject isValid canonical id s).1 = 404
     | Some P =>
         (debugProject isValid canonical id s).1
         = reply_with (mkDebugInfo true (owner P) (List.length (members P))
                         (members P))
         ∧ (¬ canAccess P user →
            Forbidden (getProjectById isValid canonical id user s).1)
     end).
Proof.
  unfold Forbidden, debugProject, try_catch_reply, mbind, M_bind.
  rewrite getProjectById_cases.
  destruct (isValid id) eqn:Hv; simpl; [|by repeat split].
  rewrite (Project_findById_valid _ _ _ _ Hv).
  destruct (projects s !! canonical id) as [P|]; simpl; [|by repeat split].
  split; [done|]. split; [discriminate|]. intros _. split; [done|].
  unfold canAccess. intros Hno.
  rewrite (bool_decide_false (owner P = user)) by (intros <-; auto).
  by rewrite (bool_decide_false (user ∈ members P)) by auto.
Qed.

End Users.

(** ** The further properties at work on the sample stores *)

Section DemoRuns.

Import Sample.

Lemma demo_projectX : projects Demo.store !! projectX = Some X.
Proof. vm_compute. reflexivity. Qed.

Lemma demo_task1 : tasks Demo.store !! task1 = Some T1.
Proof. vm_compute. reflexivity. Qed.

Lemma demo_task3 : tasks Demo.store !! Demo.task3 = Some Demo.T3.
Proof. vm_compute. reflexivity. Qed.

Lemma carol_cannot_access_X : ¬ canAccess X carol.
Proof.
  intros [He|Hin]; [discriminate|]. by apply carol_is_not_member.
Qed.

(** C4. Bob is a member of X.  When the owner adds him again with his id
    sent in upper case, the test for a duplicate, made on the string as
    sent, does not find him: the request is answered 200, not refused as
    DuplicateMember, and Bob's ObjectId is stored a second time.  When
    the owner removes him with the id sent in upper case, the request is
    answered 200 and Bob is still a member. *)
Lemma upper_case_member_id_slips_through :
  bob ∈ members X
  ∧ ObjectId_canonical Demo.bob_sent = bob
  ∧ (addProjectMember ObjectId_isValid ObjectId_canonical Project_schema
       projectX alice Demo.bob_sent store).1
    = json_data (ProjectData (with_members [bob; bob] X))
  ∧ ¬ DuplicateMember
        (addProjectMember ObjectId_isValid ObjectId_canonical
           Project_schema projectX alice Demo.bob_sent store).1
  ∧ projects
      (addProjectMember ObjectId_isValid ObjectId_canonical Project_schema
         projectX alice Demo.bob_sent store).2 !! projectX
    = Some (with_members [bob; bob] X)
  ∧ removeProjectMember ObjectId_isValid ObjectId_canonical Project_schema
      projectX alice Demo.bob_sent store
    = (json_data (ProjectData X), store).
Proof.
  split; [exact bob_is_member|]. split; [reflexivity|].
  split; [vm_compute; reflexivity|].
  split; [intros [Hcode _]; vm_compute in Hcode; discriminate|].
  split; vm_compute; reflexivity.
Qed.

(** Sent in the spelling of his ObjectId, Bob's id is refused as a
    duplicate and removed by a removal. *)
Example canonical_member_id_is_checked :
  DuplicateMember
    (addProjectMember ObjectId_isValid ObjectId_canonical Project_schema
       projectX alice bob store).1
  ∧ projects
      (removeProjectMember ObjectId_isValid ObjectId_canonical
         Project_schema projectX alice bob store).2 !! projectX
    = Some (with_members [] X).
Proof. split; [split|]; vm_compute; reflexivity. Qed.

(** Alice's listing of X's tasks, asked for with X's id in upper case,
    has the newer T3 before T1. *)
Example alice_lists_tasks_of_X :
  reply_data (getProjectTasks ObjectId_isValid ObjectId_canonical
                Demo.createdAt Demo.projectX_sent alice Demo.store).1
  = Some [(Demo.task3, Demo.T3); (task1, T1)].
Proof. vm_compute. reflexivity. Qed.

Example carol_lists_her_tasks :
  reply_data (getMyTasks Demo.createdAt carol Demo.store).1
  = Some [(Demo.task3, Demo.T3)].
Proof. vm_compute. reflexivity. Qed.

Lemma project_handlers_malformed_id_witness :
  ObjectId_isValid "abc" = false
  ∧ crashed (deleteProject ObjectId_isValid ObjectId_canonical "abc" alice)
      store.
Proof.
  split; [reflexivity|].
  exact (proj1 (proj2 (project_handlers_malformed_id ObjectId_isValid
                         ObjectId_canonical Project_schema store "abc"
                         alice carol rename eq_refl))).
Defined.

Lemma project_handlers_unknown_id_witness :
  ObjectId_isValid projectGone = true
  ∧ projects store !! ObjectId_canonical projectGone = None
  ∧ missing (deleteProject ObjectId_isValid ObjectId_canonical projectGone
               alice) store.
Proof.
  split; [reflexivity|]. split; [exact store_projectGone|].
  exact (proj1 (proj2 (project_handlers_unknown_id ObjectId_isValid
                         ObjectId_canonical Project_schema store
                         projectGone alice carol rename eq_refl
                         store_projectGone))).
Defined.

(** Deleting X, addressed in upper case, keeps the tasks. *)
Lemma project_handlers_frame_witness :
  tasks (deleteProject ObjectId_isValid ObjectId_canonical
           Demo.projectX_sent alice store).2
  = tasks store.
Proof.
  exact (proj1 (proj2 (proj2
    (project_handlers_frame ObjectId_isValid ObjectId_canonical
       Project_schema store Demo.projectX_sent alice carol rename
       (deleteProject ObjectId_isValid ObjectId_canonical
          Demo.projectX_sent alice)
       (or_intror (or_introl eq_refl)))))).
Defined.

Lemma project_owner_is_immutable_witness :
  projects store !! projectX = Some X
  ∧ ∀ P',
      projects (updateProject ObjectId_isValid ObjectId_canonical
                  Project_schema projectX alice rename store).2
        !! projectX = Some P' →
      owner P' = alice.
Proof.
  split; [exact store_projectX|]. intros P' HP'.
  exact (project_owner_is_immutable ObjectId_isValid ObjectId_canonical
           Project_schema store projectX alice carol rename _ projectX X P'
           (or_introl eq_refl) store_projectX HP').
Defined.

Lemma updateProject_merge_patch_witness :
  Succeeded (updateProject ObjectId_isValid ObjectId_canonical
               Project_schema projectX alice Demo.emptyTeam store).1
  ∧ ∃ P',
      projects (updateProject ObjectId_isValid ObjectId_canonical
                  Project_schema projectX alice Demo.emptyTeam store).2
        !! ObjectId_canonical projectX = Some P'
      ∧ members P' = [] ∧ name P' = "X".
Proof.
  assert (Hok : Succeeded (updateProject ObjectId_isValid
                             ObjectId_canonical Project_schema projectX
                             alice Demo.emptyTeam store).1)
    by (vm_compute; reflexivity).
  split; [exact Hok|].
  destruct (updateProject_merge_patch ObjectId_isValid ObjectId_canonical
              Project_schema store projectX alice Demo.emptyTeam Hok)
    as (P & P' & HP & HP' & _ & _ & _ & Hms & _ & Hname & _).
  exists P'. split; [exact HP'|]. split.
  - apply (Hms []). reflexivity.
  - rewrite (Hname eq_refl).
    change (ObjectId_canonical projectX) with projectX in HP.
    rewrite store_projectX in HP. injection HP as <-. reflexivity.
Defined.

Lemma add_then_remove_member_witness :
  ObjectId_isValid projectX = true
  ∧ projects store !! ObjectId_canonical projectX = Some X
  ∧ ObjectId_isValid "64B000000000000000000CA2" = true
  ∧ ("64B000000000000000000CA2" ∉ members X)
  ∧ (ObjectId_canonical "64B000000000000000000CA2" ∉ members X)
  ∧ Project_schema X = true
  ∧ Project_schema (with_members (members X ++ [carol]) X) = true
  ∧ (removeProjectMember ObjectId_isValid ObjectId_canonical
       Project_schema projectX alice carol
       (addProjectMember ObjectId_isValid ObjectId_canonical
          Project_schema projectX alice "64B000000000000000000CA2"
          store).2).2 = store.
Proof.
  assert (Hraw : "64B000000000000000000CA2" ∉ members X).
  { intros Hin. apply list_elem_of_singleton in Hin. discriminate. }
  split; [reflexivity|]. split; [exact store_projectX|].
  split; [reflexivity|]. split; [exact Hraw|].
  split; [exact carol_is_not_member|].
  split; [reflexivity|]. split; [reflexivity|].
  exact (proj1 (proj2 (proj2 (proj2
    (add_then_remove_member ObjectId_isValid ObjectId_canonical
       Project_schema store projectX "64B000000000000000000CA2" X eq_refl
       store_projectX eq_refl Hraw carol_is_not_member eq_refl
       eq_refl))))).
Defined.

Lemma addProjectMember_twice_witness :
  Succeeded (addProjectMember ObjectId_isValid ObjectId_canonical
               Project_schema projectX alice carol store).1
  ∧ ObjectId_canonical carol = carol
  ∧ DuplicateMember
      (addProjectMember ObjectId_isValid ObjectId_canonical Project_schema
         projectX alice carol
         (addProjectMember ObjectId_isValid ObjectId_canonical
            Project_schema projectX alice carol store).2).1.
Proof.
  assert (Hok : Succeeded (addProjectMember ObjectId_isValid
                             ObjectId_canonical Project_schema projectX
                             alice carol store).1)
    by (vm_compute; reflexivity).
  split; [exact Hok|]. split; [reflexivity|].
  exact (proj1 (proj1 (addProjectMember_twice ObjectId_isValid
                         ObjectId_canonical Project_schema store projectX
                         alice carol Hok) eq_refl)).
Defined.

Lemma removeProjectMember_twice_witness :
  Succeeded (removeProjectMember ObjectId_isValid ObjectId_canonical
               Project_schema projectX alice bob store).1
  ∧ Succeeded
      (removeProjectMember ObjectId_isValid ObjectId_canonical
         Project_schema projectX alice bob
         (removeProjectMember ObjectId_isValid ObjectId_canonical
            Project_schema projectX alice bob store).2).1.
Proof.
  assert (Hok : Succeeded (removeProjectMember ObjectId_isValid
                             ObjectId_canonical Project_schema projectX
                             alice bob store).1)
    by (vm_compute; reflexivity).
  split; [exact Hok|].
  exact (proj1 (removeProjectMember_twice ObjectId_isValid
                  ObjectId_canonical Project_schema store projectX alice
                  bob Hok)).
Defined.

Lemma task_handlers_malformed_id_witness :
  ObjectId_isValid "task-1" = false
  ∧ crashed (getTaskById ObjectId_isValid ObjectId_canonical "task-1"
               alice) store.
Proof.
  split; [reflexivity|].
  exact (proj1 (task_handlers_malformed_id ObjectId_isValid
                  ObjectId_canonical Task_schema store "task-1" alice
                  "hello" markCompleted eq_refl)).
Defined.

Lemma task_handlers_unknown_id_witness :
  ObjectId_isValid Demo.task4 = true
  ∧ tasks store !! ObjectId_canonical Demo.task4 = None
  ∧ missing (getTaskById ObjectId_isValid ObjectId_canonical Demo.task4
               alice) store.
Proof.
  assert (Hnone : tasks store !! ObjectId_canonical Demo.task4 = None)
    by (vm_compute; reflexivity).
  split; [reflexivity|]. split; [exact Hnone|].
  exact (proj1 (task_handlers_unknown_id ObjectId_isValid
                  ObjectId_canonical Task_schema store Demo.task4 alice
                  "hello" markCompleted eq_refl Hnone)).
Defined.

(** Deleting task 1, addressed in upper case, keeps the projects. *)
Lemma task_handlers_frame_witness :
  projects (deleteTask ObjectId_isValid ObjectId_canonical Demo.task1_sent
              alice store).2
  = projects store.
Proof.
  exact (proj1 (proj2 (proj2 (proj2
    (task_handlers_frame ObjectId_isValid ObjectId_canonical Task_schema
       store Demo.task1_sent alice "hello" markCompleted
       (deleteTask ObjectId_isValid ObjectId_canonical Demo.task1_sent
          alice)
       (or_intror (or_intror (or_introl eq_refl)))))))).
Defined.

Lemma deleteTask_then_gone_witness :
  Succeeded (deleteTask ObjectId_isValid ObjectId_canonical task1 alice
               store).1
  ∧ missing (getTaskById ObjectId_isValid ObjectId_canonical task1 bob)
      (deleteTask ObjectId_isValid ObjectId_canonical task1 alice store).2.
Proof.
  assert (Hok : Succeeded (deleteTask ObjectId_isValid ObjectId_canonical
                             task1 alice store).1)
    by (vm_compute; reflexivity).
  split; [exact Hok|].
  exact (proj1 (proj2 (deleteTask_then_gone ObjectId_isValid
                         ObjectId_canonical store task1 alice bob Hok))).
Defined.

Lemma deleteProject_orphans_tasks_witness :
  Succeeded (deleteProject ObjectId_isValid ObjectId_canonical projectX
               alice store).1
  ∧ ObjectId_isValid task1 = true
  ∧ tasks store !! ObjectId_canonical task1 = Some T1
  ∧ project T1 = ObjectId_canonical projectX
  ∧ crashed (deleteTask ObjectId_isValid ObjectId_canonical task1 alice)
      (deleteProject ObjectId_isValid ObjectId_canonical projectX alice
         store).2.
Proof.
  assert (Hok : Succeeded (deleteProject ObjectId_isValid
                             ObjectId_canonical projectX alice store).1)
    by (vm_compute; reflexivity).
  split; [exact Hok|]. split; [reflexivity|].
  split; [exact store_task1|]. split; [reflexivity|].
  pose proof (deleteProject_orphans_tasks ObjectId_isValid
                ObjectId_canonical Task_schema store projectX alice alice
                task1 "hello" T1 markCompleted Hok eq_refl store_task1
                eq_refl)
    as (_ & _ & _ & _ & _ & Hdel & _).
  exact Hdel.
Defined.

(** Removed under his id, Bob is refused; removed under his id in upper
    case, Bob still reads X. *)
Lemma removed_member_loses_access_witness :
  Succeeded (removeProjectMember ObjectId_isValid ObjectId_canonical
               Project_schema projectX alice bob store).1
  ∧ bob ≠ alice
  ∧ ObjectId_isValid task1 = true
  ∧ tasks store !! ObjectId_canonical task1 = Some T1
  ∧ project T1 = ObjectId_canonical projectX
  ∧ refused (addComment ObjectId_isValid ObjectId_canonical Task_schema
               task1 bob "hello")
      (removeProjectMember ObjectId_isValid ObjectId_canonical
         Project_schema projectX alice bob store).2.
Proof.
  assert (Hok : Succeeded (removeProjectMember ObjectId_isValid
                             ObjectId_canonical Project_schema projectX
                             alice bob store).1)
    by (vm_compute; reflexivity).
  assert (Hne : bob ≠ alice) by discriminate.
  split; [exact Hok|]. split; [exact Hne|]. split; [reflexivity|].
  split; [exact store_task1|]. split; [reflexivity|].
  pose proof (removed_member_loses_access ObjectId_isValid
                ObjectId_canonical Project_schema Task_schema store
                projectX alice bob bob task1 "hello" T1 markCompleted Hok
                Hne eq_refl store_task1 eq_refl)
    as [Hlost _].
  destruct (Hlost eq_refl) as (_ & _ & _ & _ & Hcomment).
  exact Hcomment.
Defined.

Example bob_survives_upper_case_removal :
  Succeeded
    (getProjectById ObjectId_isValid ObjectId_canonical projectX bob
       (removeProjectMember ObjectId_isValid ObjectId_canonical
          Project_schema projectX alice Demo.bob_sent store).2).1.
Proof. vm_compute. reflexivity. Qed.

(** Carol, added under her id in upper case, reads task 1. *)
Lemma added_member_gains_access_witness :
  Succeeded (addProjectMember ObjectId_isValid ObjectId_canonical
               Project_schema projectX alice "64B000000000000000000CA2"
               store).1
  ∧ ObjectId_isValid task1 = true
  ∧ tasks store !! ObjectId_canonical task1 = Some T1
  ∧ project T1 = ObjectId_canonical projectX
  ∧ (getTaskById ObjectId_isValid ObjectId_canonical task1 carol
       (addProjectMember ObjectId_isValid ObjectId_canonical
          Project_schema projectX alice "64B000000000000000000CA2"
          store).2).1 = json_data (TaskData T1).
Proof.
  assert (Hok : Succeeded (addProjectMember ObjectId_isValid
                             ObjectId_canonical Project_schema projectX
                             alice "64B000000000000000000CA2" store).1)
    by (vm_compute; reflexivity).
  split; [exact Hok|]. split; [reflexivity|].
  split; [exact store_task1|]. split; [reflexivity|].
  exact (proj2 (added_member_gains_access ObjectId_isValid
                  ObjectId_canonical Project_schema store projectX alice
                  "64B000000000000000000CA2" task1 T1 Hok eq_refl
                  store_task1 eq_refl)).
Defined.

Lemma createTask_creates_witness :
  Created (createTask ObjectId_isValid ObjectId_canonical Task_schema
             Demo.newTaskId "pending" "medium" bob Demo.bobsTask
             Demo.store).1
  ∧ ∃ T,
      tasks (createTask ObjectId_isValid ObjectId_canonical Task_schema
               Demo.newTaskId "pending" "medium" bob Demo.bobsTask
               Demo.store).2
        !! Demo.task4 = Some T
      ∧ createdBy T = bob.
Proof.
  assert (Hok : Created (createTask ObjectId_isValid ObjectId_canonical
                           Task_schema Demo.newTaskId "pending" "medium"
                           bob Demo.bobsTask Demo.store).1)
    by (vm_compute; reflexivity).
  split; [exact Hok|].
  destruct (createTask_creates ObjectId_isValid ObjectId_canonical
              Task_schema Demo.newTaskId "pending" "medium" Demo.store bob
              Demo.bobsTask Hok)
    as (T & HT & _ & Hby & _).
  exists T. split; [exact HT | exact Hby].
Defined.

Lemma getProjects_agrees_with_getProjectById_witness :
  ObjectId_isValid Demo.projectX_sent = true
  ∧ ∃ l P, reply_data (getProjects bob Demo.store).1 = Some l
           ∧ (ObjectId_canonical Demo.projectX_sent, P) ∈ l.
Proof.
  split; [reflexivity|].
  apply (getProjects_agrees_with_getProjectById ObjectId_isValid
           ObjectId_canonical Demo.store Demo.projectX_sent bob eq_refl).
  vm_compute. reflexivity.
Defined.

Lemma assigned_task_listed_but_forbidden_witness :
  ObjectId_isValid Demo.task3 = true
  ∧ tasks Demo.store !! ObjectId_canonical Demo.task3 = Some Demo.T3
  ∧ assignedTo Demo.T3 = Some carol
  ∧ projects Demo.store !! project Demo.T3 = Some X
  ∧ ¬ canAccess X carol
  ∧ Forbidden (getTaskById ObjectId_isValid ObjectId_canonical Demo.task3
                 carol Demo.store).1.
Proof.
  split; [reflexivity|]. split; [exact demo_task3|].
  split; [reflexivity|].
  split; [exact demo_projectX|]. split; [exact carol_cannot_access_X|].
  exact (proj2 (assigned_task_listed_but_forbidden ObjectId_isValid
                  ObjectId_canonical Demo.createdAt Demo.store Demo.task3
                  carol Demo.T3 X eq_refl demo_task3 eq_refl demo_projectX
                  carol_cannot_access_X)).
Defined.

Lemma register_then_login_witness :
  Created (register newObjectId hash jwt_sign User_schema Demo.carolSignup
             Demo.store).1
  ∧ Demo.comparePassword "s3cret" (hash "s3cret") = true
  ∧ Demo.comparePassword "guess" (hash "s3cret") = false
  ∧ (login Demo.comparePassword jwt_sign "carol@example.org" "guess"
       (register newObjectId hash jwt_sign User_schema Demo.carolSignup
          Demo.store).2).1
    = refuse 401 "Invalid email or password".
Proof.
  assert (Hok : Created (register newObjectId hash jwt_sign User_schema
                           Demo.carolSignup Demo.store).1)
    by (vm_compute; reflexivity).
  split; [exact Hok|]. split; [reflexivity|]. split; [reflexivity|].
  exact (proj2 (register_then_login User_schema newObjectId hash jwt_sign
                  Demo.comparePassword Demo.store Demo.carolSignup "guess"
                  Hok eq_refl eq_refl)).
Defined.

Lemma updateUser_merge_patch_witness :
  reply_code (updateUser ObjectId_isValid ObjectId_canonical User_schema
                Demo.bob_sent Demo.promote Demo.store).1 = 200
  ∧ ∃ u',
      u' ∈ users (updateUser ObjectId_isValid ObjectId_canonical
                    User_schema Demo.bob_sent Demo.promote Demo.store).2
      ∧ user_id u' = bob ∧ role u' = "admin" ∧ firstName u' = "B".
Proof.
  assert (Hok : reply_code (updateUser ObjectId_isValid ObjectId_canonical
                              User_schema Demo.bob_sent Demo.promote
                              Demo.store).1 = 200)
    by (vm_compute; reflexivity).
  split; [exact Hok|].
  destruct (updateUser_merge_patch ObjectId_isValid ObjectId_canonical
              User_schema Demo.store Demo.bob_sent Demo.promote Hok)
    as (u & u' & Hu & Huid & Hin & _ & Hid & _ & _ & _ & Hfirst & _ & _
        & Hrole & _).
  exists u'. split; [exact Hin|]. split; [exact Hid|].
  split; [apply Hrole; [reflexivity | discriminate]|].
  rewrite (Hfirst eq_refl).
  change (ObjectId_canonical Demo.bob_sent) with bob in Huid.
  apply elem_of_cons in Hu as [->|Hu]; [discriminate|].
  apply list_elem_of_singleton in Hu as ->. reflexivity.
Defined.

Lemma carol_id_is_new (u : User) :
  u ∈ users Demo.store → user_id u ≠ newObjectId (users Demo.store).
Proof.
  intros Hin. apply elem_of_cons in Hin as [->|Hin]; [discriminate|].
  apply list_elem_of_singleton in Hin as ->. discriminate.
Qed.

Lemma register_then_getProfile_witness :
  Created (register newObjectId hash jwt_sign User_schema Demo.carolSignup
             Demo.store).1
  ∧ reply_data
      (getProfile carol
         (register newObjectId hash jwt_sign User_schema Demo.carolSignup
            Demo.store).2).1
    = Some (mkProfile carol "carol" "carol@example.org" "C" "A" "user").
Proof.
  assert (Hok : Created (register newObjectId hash jwt_sign User_schema
                           Demo.carolSignup Demo.store).1)
    by (vm_compute; reflexivity).
  split; [exact Hok|].
  pose proof (register_then_getProfile User_schema newObjectId hash
                jwt_sign Demo.store Demo.carolSignup Hok carol_id_is_new)
    as Hread.
  change (newObjectId (users Demo.store)) with carol in Hread.
  rewrite Hread. reflexivity.
Defined.

End DemoRuns.
